(** * A shallow embedding of [facebookinsights/graph.py]

    The Python objects of the module are modelled as follows.
    - Python values stored in the [meta] and [params] dictionaries are
      [pyval]; instants are integers counting microseconds (the
      resolution of [datetime]).
    - Dictionaries are [gmap string pyval]; since [clone] copies them and
      builder calls mutate them, they live in a heap of dictionaries
      indexed by location ([World]); a [Selection] object holds the
      locations of its two dictionaries.
    - Exceptions are the constructors of [PyErr]; fallible code returns a
      [Result].
    - The date collaborator ([utils.date]) and the transport collaborator
      ([utils.api.GraphAPI]) are external to the module and are passed in
      as records of functions. *)

From Stdlib Require Import ZArith List Ascii String Bool Lia.
From stdpp Require Import base gmap strings list fin_maps.
Import ListNotations.

Open Scope string_scope.

(* ------------------------------------------------------------------ *)
(** ** Python values, errors and results *)

Inductive pyval :=
| PBool (b : bool)
| PInt (z : Z)
| PStr (s : string)
| PTime (t : Z)
| PList (l : list string).

Inductive PyErr :=
| KeyError (k : string)
| TypeError
| ValueError
| AttributeError
| IndexError
| NotImplementedError
| UnicodeDecodeError.

Inductive Result (A : Type) :=
| Ok (a : A)
| Err (e : PyErr).
Arguments Ok {A} a.
Arguments Err {A} e.

Definition bind {A B} (r : Result A) (f : A -> Result B) : Result B :=
  match r with Ok a => f a | Err e => Err e end.

Notation "x <- r ;; k" := (bind r (fun x => k))
  (at level 100, r at next level, right associativity).

Fixpoint mapM {A B} (f : A -> Result B) (l : list A) : Result (list B) :=
  match l with
  | [] => Ok []
  | x :: xs => y <- f x ;; ys <- mapM f xs ;; Ok (y :: ys)
  end.

(** Python truthiness of the values that can sit in [meta]/[params]. *)
Definition py_truthy (v : pyval) : bool :=
  match v with
  | PBool b => b
  | PInt z => negb (Z.eqb z 0)
  | PStr s => negb (String.eqb s "")
  | PTime _ => true
  | PList l => match l with [] => false | _ => true end
  end.

Abbreviation pydict := (gmap string pyval).

(** [d[k]]: raises [KeyError] on a missing key. *)
Definition getitem (d : pydict) (k : string) : Result pyval :=
  match d !! k with Some v => Ok v | None => Err (KeyError k) end.

(* ------------------------------------------------------------------ *)
(** ** External collaborators *)

(** [utils.date]: parsing of server timestamps, conversion to API
    timestamps and the "beginning of time" sentinel. *)
Record DateUtils := {
  COMMON_ERA : Z;
  parse : string -> Z;
  parse_utc : string -> Z;
  timestamp : string -> Z
}.

(* ------------------------------------------------------------------ *)
(** ** The heap of dictionaries and the [Selection] objects *)

(** The clock is read by [datetime.now()] and
    [datetime.today().isoformat()]; one [World] carries one reading. *)
Record World := mkWorld {
  heap : gmap N pydict;
  next : N;
  clock_now : Z;
  clock_today : string
}.

Definition with_heap (w : World) (h : gmap N pydict) (n : N) : World :=
  mkWorld h n (clock_now w) (clock_today w).

Definition alloc (d : pydict) (w : World) : N * World :=
  (next w, with_heap w (<[next w := d]> (heap w)) (next w + 1)%N).

Definition deref (l : N) (w : World) : pydict := default ∅ (heap w !! l).

(** [d[k] = v] on the dictionary stored at [l]. *)
Definition setitem (l : N) (k : string) (v : pyval) (w : World) : World :=
  with_heap w (<[l := <[k := v]> (deref l w)]> (heap w)) (next w).

Inductive SelClass := CPostSelection | CInsightsSelection.

Record Selection := mkSel {
  sel_class : SelClass;
  sel_edge : N;
  sel_meta : N;
  sel_params : N
}.

Section Builders.
Variable D : DateUtils.

(** [Selection.__init__] (shared by both subclasses). *)
Definition Selection_init (c : SelClass) (edge : N) (w : World)
    : Selection * World :=
  let '(m, w1) := alloc (<["since" := PTime (COMMON_ERA D)]>
                          (<["until" := PTime (clock_now w)]> ∅)) w in
  let '(p, w2) := alloc (<["page" := PBool false]> ∅) w1 in
  (mkSel c edge m p, w2).

(** [Selection.clone]: [self.__class__(self.edge)], then
    [copy.copy] of both dictionaries. *)
Definition clone (s : Selection) (w : World) : Selection * World :=
  let '(sel, w1) := Selection_init (sel_class s) (sel_edge s) w in
  let '(m, w2) := alloc (deref (sel_meta s) w1) w1 in
  let '(p, w3) := alloc (deref (sel_params s) w2) w2 in
  (mkSel (sel_class sel) (sel_edge sel) m p, w3).

(** Modelled from the spec: the decorator [utils.functional.immutable]
    (not among the sources) -- "builder calls never mutate [self]; they
    operate on a clone and return it". *)
Definition immutable (f : Selection -> World -> Selection * World)
    (s : Selection) (w : World) : Selection * World :=
  let '(c, w1) := clone s w in f c w1.

(** The body of [Selection.range]; [until] is [None] when omitted. *)
Definition default_until (today : string) (until : option string) : string :=
  match until with
  | Some u => if String.eqb u "" then today else u
  | None => today
  end.

Definition range_body (since : string) (until : option string)
    (s : Selection) (w : World) : Selection * World :=
  let until := default_until (clock_today w) until in
  let w := setitem (sel_meta s) "since" (PTime (parse_utc D since)) w in
  let w := setitem (sel_meta s) "until" (PTime (parse_utc D until)) w in
  let w := setitem (sel_params s) "page" (PBool true) w in
  let w := setitem (sel_params s) "since" (PInt (timestamp D since)) w in
  let w := setitem (sel_params s) "until" (PInt (timestamp D until)) w in
  (s, w).

Definition Selection_range (s : Selection) (since : string)
    (until : option string) : World -> Selection * World :=
  immutable (range_body since until) s.

Definition Selection_since (s : Selection) (date : string)
    : World -> Selection * World :=
  immutable (fun c => Selection_range c date None) s.

Definition PostSelection_latest (s : Selection) (n : Z)
    : World -> Selection * World :=
  immutable (fun c w => (c, setitem (sel_params c) "limit" (PInt n) w)) s.

(** The argument of [_metrics]: absent, one bare name, or a list. *)
Inductive MetricsArg :=
| MNone
| MBare (m : string)
| MList (ms : list string).

Definition metrics_truthy (ids : MetricsArg) : bool :=
  match ids with
  | MNone => false
  | MBare m => negb (String.eqb m "")
  | MList ms => match ms with [] => false | _ => true end
  end.

Definition InsightsSelection__metrics (s : Selection) (ids : MetricsArg)
    (w : World) : Selection * World :=
  if metrics_truthy ids then
    match ids with
    | MList ms =>
        let w := setitem (sel_meta s) "single" (PBool false) w in
        (s, setitem (sel_meta s) "metrics" (PList ms) w)
    | MBare m =>
        let w := setitem (sel_meta s) "single" (PBool true) w in
        (s, setitem (sel_meta s) "metrics" (PList [m]) w)
    | MNone => (s, w)
    end
  else (s, w).

Definition period_builder (period : string) (s : Selection)
    (metrics : MetricsArg) : World -> Selection * World :=
  immutable (fun c w =>
    InsightsSelection__metrics c metrics
      (setitem (sel_params c) "period" (PStr period) w)) s.

Definition InsightsSelection_daily := period_builder "day".
Definition InsightsSelection_weekly := period_builder "week".
Definition InsightsSelection_monthly := period_builder "days_28".
Definition InsightsSelection_lifetime := period_builder "lifetime".

(** One builder call of the public API. *)
Inductive Builder :=
| BRange (since : string) (until : option string)
| BSince (date : string)
| BLatest (n : Z)
| BDaily (m : MetricsArg)
| BWeekly (m : MetricsArg)
| BMonthly (m : MetricsArg)
| BLifetime (m : MetricsArg).

(** Attribute lookup of the method on the concrete class: [latest] only
    exists on [PostSelection], the period builders only on
    [InsightsSelection] ([None] is the [AttributeError]). *)
Definition apply_builder (s : Selection) (b : Builder) (w : World)
    : option (Selection * World) :=
  match b, sel_class s with
  | BRange a u, _ => Some (Selection_range s a u w)
  | BSince d, _ => Some (Selection_since s d w)
  | BLatest n, CPostSelection => Some (PostSelection_latest s n w)
  | BDaily m, CInsightsSelection => Some (InsightsSelection_daily s m w)
  | BWeekly m, CInsightsSelection => Some (InsightsSelection_weekly s m w)
  | BMonthly m, CInsightsSelection => Some (InsightsSelection_monthly s m w)
  | BLifetime m, CInsightsSelection => Some (InsightsSelection_lifetime s m w)
  | _, _ => None
  end.

Fixpoint run_builders (s : Selection) (bs : list Builder) (w : World)
    : option (Selection * World) :=
  match bs with
  | [] => Some (s, w)
  | b :: bs' =>
      match apply_builder s b w with
      | Some (s', w') => run_builders s' bs' w'
      | None => None
      end
  end.

(** A selection built by a factory property ([Page.posts],
    [Page.insights], [Post.insights]) followed by a chain of builder
    calls. *)
Definition reachable (c : SelClass) (edge : N) (bs : list Builder)
    (w : World) : option (Selection * World) :=
  let '(s0, w0) := Selection_init c edge w in run_builders s0 bs w0.

(** [InsightsSelection._has_daterange]. *)
Definition _has_daterange (params : pydict) : bool :=
  bool_decide (is_Some (params !! "since")) ||
  bool_decide (is_Some (params !! "until")).

End Builders.

(* ------------------------------------------------------------------ *)
(** ** [InsightsSelection.get] and [serialize] *)

#[local] Set Warnings "-register-all".

(** JSON values as the transport decodes them. *)
Inductive json :=
| JInt (z : Z)
| JStr (s : string)
| JNull
| JList (l : list json)
| JObj (kv : list (string * json)).

(** One entry of a dataset's [values]: [row['value']] and the optional
    [row.get('end_time')]. *)
Record ValueRow := { vr_value : json; vr_end_time : option string }.

(** One dataset of a result's [data]: [name] and [values]. *)
Record Dataset := { ds_name : string; ds_values : list ValueRow }.

(** Modelled from the spec: the transport collaborator's
    [graph.all('insights', subrequests, **params)] (one result per
    subrequest, in order) and [graph.get('insights', **params)]; a result
    is given by its [data] list. [graph_get] is the single page that
    [graph.get] answers when pagination is off. *)
Record InsightsTransport := {
  graph_all : list string -> pydict -> list (list Dataset);
  graph_get : pydict -> list Dataset
}.

(** What [graph.get('insights', **params)] returns: one page, or -- "a
    call with pagination enabled returns a lazy sequence of pages rather
    than one page", pagination being driven by [params['page']] -- a
    sequence of pages. *)
Inductive InsightsResponse :=
| IOnePage (data : list Dataset)
| IPageSeq.

Definition graph_get_insights (tr : InsightsTransport) (params : pydict)
    : InsightsResponse :=
  match params !! "page" with
  | Some v => if py_truthy v then IPageSeq else IOnePage (graph_get tr params)
  | None => IOnePage (graph_get tr params)
  end.

(** [result['data']]: a sequence of pages is not indexed by a string,
    which raises [TypeError]. *)
Definition result_data (r : InsightsResponse) : Result (list Dataset) :=
  match r with
  | IOnePage data => Ok data
  | IPageSeq => Err TypeError
  end.

(** The transport calls issued by [get]. *)
Inductive Call :=
| CallAll (resource : string) (relative_urls : list string) (params : pydict)
| CallGet (resource : string) (params : pydict).

(** Keys of the pivot: a parsed instant or the string ['lifetime']. *)
Inductive Bucket :=
| KTime (t : Z)
| KLifetime.

Global Instance Bucket_eq_dec : EqDecision Bucket.
Proof. intros [a|] [b|]; try (right; discriminate); try (left; reflexivity).
  destruct (Z.eq_dec a b); [left; congruence | right; congruence]. Defined.

(** A Python dict iterated in insertion order; [assoc_set] is
    [d[k] = v]. *)
Fixpoint assoc_get {K V} `{EqDecision K} (k : K) (l : list (K * V)) : option V :=
  match l with
  | [] => None
  | (k', v) :: r => if decide (k = k') then Some v else assoc_get k r
  end.

Fixpoint assoc_set {K V} `{EqDecision K} (k : K) (v : V) (l : list (K * V))
    : list (K * V) :=
  match l with
  | [] => [(k, v)]
  | (k', v') :: r =>
      if decide (k = k') then (k, v) :: r else (k', v') :: assoc_set k v r
  end.

Abbreviation PivotData := (list (Bucket * list (string * json))).

(** [end_time = row.get('end_time'); if end_time: ... parse ... else
    'lifetime'] *)
Definition bucket_of (D : DateUtils) (r : ValueRow) : Bucket :=
  match vr_end_time r with
  | Some s => if String.eqb s "" then KLifetime else KTime (parse D s)
  | None => KLifetime
  end.

(** [data.setdefault(end_time, {})[metric] = value] *)
Definition pivot_row (D : DateUtils) (metric : string) (data : PivotData)
    (r : ValueRow) : PivotData :=
  let b := bucket_of D r in
  assoc_set b (assoc_set metric (vr_value r) (default [] (assoc_get b data)))
    data.

(** The loop over [datasets]: [fields.append(metric)] and the inner
    loop over [rows]. *)
Definition pivot_dataset (D : DateUtils) (acc : list string * PivotData)
    (ds : Dataset) : list string * PivotData :=
  let '(fields, data) := acc in
  ((fields ++ [ds_name ds])%list, fold_left (pivot_row D (ds_name ds)) (ds_values ds) data).

Definition pivot (D : DateUtils) (datasets : list Dataset)
    : list string * PivotData :=
  fold_left (pivot_dataset D) datasets (["end_time"], []).

(** [namedtuple('Row', fields)] of Python 2.7 (with [rename=False])
    validates every name: only alphanumerics and underscores, not a
    keyword, not starting with a digit ([name[0]] raises [IndexError] on
    an empty name); field names must not start with an underscore and
    must be distinct. *)
Definition py_keywords : list string :=
  ["and"; "as"; "assert"; "break"; "class"; "continue"; "def"; "del";
   "elif"; "else"; "except"; "exec"; "finally"; "for"; "from"; "global";
   "if"; "import"; "in"; "is"; "lambda"; "not"; "or"; "pass"; "print";
   "raise"; "return"; "try"; "while"; "with"; "yield"].

Definition is_alnum_or_underscore (c : ascii) : bool :=
  let n := nat_of_ascii c in
  (Nat.leb 48 n && Nat.leb n 57) || (Nat.leb 65 n && Nat.leb n 90) ||
  (Nat.leb 97 n && Nat.leb n 122) || Nat.eqb n 95.

Definition is_digit (c : ascii) : bool :=
  let n := nat_of_ascii c in Nat.leb 48 n && Nat.leb n 57.

Fixpoint string_forallb (f : ascii -> bool) (s : string) : bool :=
  match s with
  | EmptyString => true
  | String c r => f c && string_forallb f r
  end.

Definition check_name (name : string) : Result unit :=
  if negb (string_forallb is_alnum_or_underscore name) then Err ValueError
  else if existsb (String.eqb name) py_keywords then Err ValueError
  else match name with
       | EmptyString => Err IndexError
       | String c _ => if is_digit c then Err ValueError else Ok tt
       end.

Fixpoint check_fields (seen : list string) (fields : list string) : Result unit :=
  match fields with
  | [] => Ok tt
  | f :: fs =>
      match f with
      | String "_" _ => Err ValueError
      | _ => if existsb (String.eqb f) seen then Err ValueError
             else check_fields (f :: seen) fs
      end
  end.

Definition namedtuple (typename : string) (fields : list string) : Result (list string) :=
  _ <- check_name typename ;;
  _ <- mapM check_name fields ;;
  _ <- check_fields [] fields ;;
  Ok fields.

(** A field of a [Row]: [end_time] holds the bucket, the metrics hold
    JSON values. *)
Inductive Cell :=
| CEnd (b : Bucket)
| CVal (v : json).

(** A [Row] instance: its fields in order with their values. *)
Abbreviation Row := (list (string * Cell)).

Definition in_list (x : string) (l : list string) : bool :=
  existsb (String.eqb x) l.

(** [Row(end_time=time, **values)]: a repeated [end_time] keyword, an
    unknown keyword or a missing field raises [TypeError]. *)
Definition make_Row (fields : list string) (time : Bucket)
    (values : list (string * json)) : Result Row :=
  let keys := map fst values in
  if in_list "end_time" keys then Err TypeError
  else if negb (forallb (fun k => in_list k fields) keys) then Err TypeError
  else if negb (forallb (fun f => String.eqb f "end_time" || in_list f keys) fields)
  then Err TypeError
  else Ok (map (fun f => (f, if String.eqb f "end_time" then CEnd time
                             else CVal (default JNull (assoc_get f values))))
               fields).

(** What [getattr(row, name)] can return: a field's value, the class
    [Row] itself ([__class__]), or another attribute that a Python 2.7
    namedtuple instance gets from its class or from [tuple] and
    [object] (a method, [__doc__], [_fields], ...). *)
Inductive RowAttr :=
| RField (c : Cell)
| RRowClass
| RMember (name : string).

(** The attributes other than [__class__] that a Python 2.7.18
    namedtuple instance has besides its fields. *)
Definition row_members : list string :=
  ["__add__"; "__contains__"; "__delattr__"; "__dict__"; "__doc__";
   "__eq__"; "__format__"; "__ge__"; "__getattribute__"; "__getitem__";
   "__getnewargs__"; "__getslice__"; "__getstate__"; "__gt__"; "__hash__";
   "__init__"; "__iter__"; "__le__"; "__len__"; "__lt__"; "__module__";
   "__mul__"; "__ne__"; "__new__"; "__reduce__"; "__reduce_ex__";
   "__repr__"; "__rmul__"; "__setattr__"; "__sizeof__"; "__slots__";
   "__str__"; "__subclasshook__"; "_asdict"; "_fields"; "_make";
   "_replace"; "count"; "index"].

(** [getattr(row, name)]: the field properties of the class come first,
    then the other class attributes; any other name raises
    [AttributeError]. *)
Definition row_getattr (row : Row) (name : string) : Result RowAttr :=
  match assoc_get name row with
  | Some c => Ok (RField c)
  | None =>
      if String.eqb name "__class__" then Ok RRowClass
      else if in_list name row_members then Ok (RMember name)
      else Err AttributeError
  end.

Inductive InsightsOut :=
| Rows (rs : list Row)
| Values (vs : list RowAttr).

(** [days = math.ceil(seconds / 60 / 60 / 24)] with instants in
    microseconds; [ceil_div a b = ceil(a / b)] for [b > 0]. *)
Definition ceil_div (a b : Z) : Z := - ((- a) / b).

Definition day_us : Z := (86400 * 1000000)%Z.

Definition requested_days (meta params : pydict) : Result Z :=
  if _has_daterange params then
    u <- getitem meta "until" ;;
    s <- getitem meta "since" ;;
    match u, s with
    | PTime u, PTime s => Ok (ceil_div (u - s) day_us)
    | _, _ => Err TypeError
    end
  else Ok 3%Z.

(** The lines after the fetch: flatten, pivot, build the rows and shape
    the result. *)
Definition build_rows (D : DateUtils) (results : list (list Dataset))
    : Result (list Row) :=
  let datasets := concat results in
  let '(fields, data) := pivot D datasets in
  fs <- namedtuple "Row" fields ;;
  mapM (fun '(time, values) => make_Row fs time values) data.

Definition shape (meta : pydict) (rows : list Row) : Result InsightsOut :=
  single <- getitem meta "single" ;;
  if py_truthy single then
    ms <- getitem meta "metrics" ;;
    match ms with
    | PList (metric :: _) =>
        vs <- mapM (fun row => row_getattr row metric) rows ;;
        Ok (Values vs)
    | PList [] => Err IndexError
    | _ => Err TypeError
    end
  else Ok (Rows rows).

(** [InsightsSelection.get]: the transport calls issued and the
    outcome. *)
Definition InsightsSelection_get (D : DateUtils) (tr : InsightsTransport)
    (meta params : pydict) : list Call * Result InsightsOut :=
  match requested_days meta params with
  | Err e => ([], Err e)
  | Ok days =>
      if Z.ltb (31 * 3)%Z days then ([], Err NotImplementedError)
      else
        match meta !! "metrics" with
        | Some (PList ms) =>
            ([CallAll "insights" ms params],
             rows <- build_rows D (graph_all tr ms params) ;; shape meta rows)
        | Some _ => ([], Err TypeError)
        | None =>
            ([CallGet "insights" params],
             data <- result_data (graph_get_insights tr params) ;;
             rows <- build_rows D [data] ;; shape meta rows)
        end
  end.

(** [row._asdict()]: a [Row] gives its fields and values in order. On
    an element of a value list: the class [Row] has [_asdict] only as an
    unbound method, whose call without an instance raises [TypeError];
    neither an instant, the string ['lifetime'], a JSON value nor any
    other attribute has an [_asdict] attribute. *)
Definition Row__asdict (r : Row) : Result (list (string * Cell)) := Ok r.

Definition RowAttr__asdict (a : RowAttr) : Result (list (string * Cell)) :=
  match a with
  | RRowClass => Err TypeError
  | _ => Err AttributeError
  end.

(** [InsightsSelection.serialize]. *)
Definition InsightsSelection_serialize (D : DateUtils) (tr : InsightsTransport)
    (meta params : pydict) : list Call * Result (list (list (string * Cell))) :=
  let '(calls, r) := InsightsSelection_get D tr meta params in
  (calls,
   out <- r ;;
   match out with
   | Rows rs => mapM Row__asdict rs
   | Values vs => mapM RowAttr__asdict vs
   end).

(* ------------------------------------------------------------------ *)
(** ** [Picture]: [urlparse.urlparse] and [urlparse.parse_qs] *)

(** [s.split(c)]. *)
Fixpoint split_all (c : ascii) (s : string) : list string :=
  match s with
  | EmptyString => [""]
  | String x r =>
      if Ascii.eqb x c then "" :: split_all c r
      else match split_all c r with
           | [] => [String x ""]
           | w :: ws => String x w :: ws
           end
  end.

(** [s.split(c, 1)]: [None] when [c] does not occur. *)
Fixpoint split_once (c : ascii) (s : string) : option (string * string) :=
  match s with
  | EmptyString => None
  | String x r =>
      if Ascii.eqb x c then Some ("", r)
      else match split_once c r with
           | Some (a, b) => Some (String x a, b)
           | None => None
           end
  end.

(** [c not in s]. *)
Definition no_char (c : ascii) (s : string) : bool :=
  string_forallb (fun x => negb (Ascii.eqb x c)) s.

(** The [query] component of [urlparse.urlparse] (Python 2.7
    [urlsplit]): the fragment is cut at the first ['#'], the query is
    what follows the first ['?'] before it. [urlsplit] first removes a
    scheme and a netloc, neither of which holds a ['?'] or a ['#'], so
    the query is the same when computed on the whole string. *)
Definition url_query (url : string) : string :=
  let url := match split_once "#" url with Some (u, _) => u | None => url end in
  match split_once "?" url with Some (_, q) => q | None => "" end.

(** [urlparse.scheme_chars]. *)
Definition is_scheme_char (c : ascii) : bool :=
  let n := nat_of_ascii c in
  (Nat.leb 48 n && Nat.leb n 57) || (Nat.leb 65 n && Nat.leb n 90) ||
  (Nat.leb 97 n && Nat.leb n 122) || Ascii.eqb c "+" || Ascii.eqb c "-" ||
  Ascii.eqb c ".".

(** The scheme step of [urlsplit]: with [i = url.find(':') > 0], the
    text after the colon when [url[:i] == 'http'], or when [url[:i]] is
    made of [scheme_chars] and what follows is not a port number (empty
    or holding a non-digit); otherwise [url] unchanged. *)
Definition strip_scheme (url : string) : string :=
  match split_once ":" url with
  | Some (sch, rest) =>
      if String.eqb sch "" then url
      else if String.eqb sch "http" then rest
      else if string_forallb is_scheme_char sch &&
              (String.eqb rest "" || negb (string_forallb is_digit rest))
           then rest else url
  | None => url
  end.

(** [_splitnetloc(url, 2)]'s netloc: up to the first ['/'], ['?'] or
    ['#']. *)
Fixpoint netloc_prefix (s : string) : string :=
  match s with
  | EmptyString => EmptyString
  | String c r =>
      if Ascii.eqb c "/" || Ascii.eqb c "?" || Ascii.eqb c "#" then EmptyString
      else String c (netloc_prefix r)
  end.

(** The netloc [urlsplit] finds when the text after the scheme starts
    with ['//']. *)
Definition url_netloc (url : string) : option string :=
  match strip_scheme url with
  | String a (String b r) =>
      if Ascii.eqb a "/" && Ascii.eqb b "/" then Some (netloc_prefix r) else None
  | _ => None
  end.

(** [urlsplit]'s check [('[' in netloc and ']' not in netloc) or
    (']' in netloc and '[' not in netloc)], which raises
    [ValueError("Invalid IPv6 URL")]. *)
Definition invalid_ipv6 (url : string) : bool :=
  match url_netloc url with
  | Some n => xorb (negb (no_char "[" n)) (negb (no_char "]" n))
  | None => false
  end.

(** [urlparse.urlparse(url).query]. *)
Definition urlparse_query (url : string) : Result string :=
  if invalid_ipv6 url then Err ValueError else Ok (url_query url).

Definition hex_value (c : ascii) : option nat :=
  let n := nat_of_ascii c in
  if Nat.leb 48 n && Nat.leb n 57 then Some (n - 48)
  else if Nat.leb 65 n && Nat.leb n 70 then Some (n - 55)
  else if Nat.leb 97 n && Nat.leb n 102 then Some (n - 87)
  else None.

(** One [item] of [urlparse.unquote]: [_hextochr[item[:2]] + item[2:]],
    or ['%' + item] when the first two characters are not hex digits. *)
Definition unquote_item (item : string) : string :=
  match item with
  | String a (String b r) =>
      match hex_value a, hex_value b with
      | Some x, Some y => String (ascii_of_nat (16 * x + y)) r
      | _, _ => String "%" item
      end
  | _ => String "%" item
  end.

(** [urlparse.unquote]. *)
Definition unquote (s : string) : string :=
  match split_all "%" s with
  | [] => s
  | [_] => s
  | b :: bits => fold_left (fun acc it => acc ++ unquote_item it) bits b
  end.

(** [s.replace('+', ' ')]. *)
Fixpoint replace_plus (s : string) : string :=
  match s with
  | EmptyString => EmptyString
  | String x r => String (if Ascii.eqb x "+" then " " else x) (replace_plus r)
  end.

(** [urlparse.parse_qsl] with [keep_blank_values=0],
    [strict_parsing=0]: empty pairs, pairs without ['='] and pairs with
    an empty value are dropped. *)
Definition parse_qsl (qs : string) : list (string * string) :=
  let pairs := concat (map (split_all ";") (split_all "&" qs)) in
  flat_map (fun nv =>
    if String.eqb nv "" then []
    else match split_once "=" nv with
         | None => []
         | Some (n, v) =>
             if String.eqb v "" then []
             else [(unquote (replace_plus n), unquote (replace_plus v))]
         end) pairs.

(** [urlparse.parse_qs]: each name maps to the list of its values. *)
Definition parse_qs (qs : string) : gmap string (list string) :=
  fold_left (fun d '(n, v) =>
    match d !! n with
    | Some vs => <[n := (vs ++ [v])%list]> d
    | None => <[n := [v]]> d
    end) (parse_qsl qs) ∅.

(** [self.qs[k][0]]. *)
Definition qs_first (qs : gmap string (list string)) (k : string) : Result string :=
  match qs !! k with
  | Some (v :: _) => Ok v
  | Some [] => Err IndexError
  | None => Err (KeyError k)
  end.

(** [Picture] attributes; [width] and [height] are [None] when they are
    never assigned. *)
Record Picture := {
  pic_url : string;
  pic_origin : string;
  pic_width : option string;
  pic_height : option string;
  pic_basename : string
}.

Definition last_segment (s : string) : string := List.last (split_all "/" s) "".

(** [Picture.__init__]. *)
Definition Picture_init (raw : string) : Result Picture :=
  query <- urlparse_query raw ;;
  let qs := parse_qs query in
  match qs !! "url" with
  | Some _ =>
      origin <- qs_first qs "url" ;;
      width <- qs_first qs "w" ;;
      height <- qs_first qs "h" ;;
      Ok {| pic_url := raw; pic_origin := origin; pic_width := Some width;
            pic_height := Some height; pic_basename := last_segment origin |}
  | None =>
      Ok {| pic_url := raw; pic_origin := raw; pic_width := None;
            pic_height := None; pic_basename := last_segment raw |}
  end.

(** A byte string that Python 2 decodes as ASCII: every byte below
    128. *)
Definition ascii_str (s : string) : bool :=
  string_forallb (fun c => Nat.ltb (nat_of_ascii c) 128) s.

(** [Picture.__repr__]: [u"<Picture: {} ({}x{})>".format(self.basename,
    self.width, self.height)]; reading an attribute that [__init__]
    never assigned raises [AttributeError], and formatting a byte string
    into the unicode template decodes it as ASCII, raising
    [UnicodeDecodeError] on a byte of 128 or more. *)
Definition Picture___repr__ (p : Picture) : Result string :=
  match pic_width p with
  | None => Err AttributeError
  | Some w =>
      match pic_height p with
      | None => Err AttributeError
      | Some h =>
          if ascii_str (pic_basename p) && ascii_str w && ascii_str h
          then Ok ("<Picture: " ++ pic_basename p ++ " (" ++ w ++ "x" ++ h ++ ")>")
          else Err UnicodeDecodeError
      end
  end.

(** The values paired with the name [k] in a [parse_qsl] result, in
    order. *)
Definition qsl_values (k : string) (l : list (string * string)) : list string :=
  map snd (List.filter (fun nv => String.eqb (fst nv) k) l).

(** [sep.join(ws)] for a one-character separator. *)
Fixpoint join_sep (c : ascii) (ws : list string) : string :=
  match ws with
  | [] => ""
  | [w] => w
  | w :: ws' => w ++ String c (join_sep c ws')
  end.

(** A non-empty query value that [parse_qsl] passes through unchanged:
    no pair separator, no escape, no fragment mark. *)
Definition qs_plain (s : string) : bool :=
  negb (String.eqb s "") && no_char "&" s && no_char ";" s && no_char "%" s &&
  no_char "+" s && no_char "#" s.

(* ------------------------------------------------------------------ *)
(** ** [Post] and [PostSelection.get] *)

(** One raw feed item as the transport returns it. The fields read by
    [Post.__init__] are kept; [id], [type], [created_time] and
    [updated_time] are the mandatory ones, [picture] is [None] when the
    item has no ['picture'] key. *)
Record RawPost := {
  raw_id : string;
  raw_type : string;
  raw_created_time : string;
  raw_updated_time : string;
  raw_name : option string;
  raw_link : option string;
  raw_description : option string;
  raw_picture : option string
}.

(** [Post] attributes; [picture] is [None] when the item has none. *)
Record Post := {
  post_account : N;
  post_raw : RawPost;
  post_id : string;
  post_type : string;
  created_time : Z;
  updated_time : Z;
  post_picture : option Picture
}.

(** [Post.__init__]: [self.picture = Picture(self, raw['picture'])]
    when the item has a picture, which raises when [Picture.__init__]
    does. *)
Definition Post_init (D : DateUtils) (account : N) (raw : RawPost) : Result Post :=
  pic <- match raw_picture raw with
         | Some p => pic <- Picture_init p ;; Ok (Some pic)
         | None => Ok None
         end ;;
  Ok {| post_account := account;
        post_raw := raw;
        post_id := raw_id raw;
        post_type := raw_type raw;
        created_time := parse D (raw_created_time raw);
        updated_time := parse D (raw_updated_time raw);
        post_picture := pic |}.

(** A page of the [posts] resource: its [data] list. *)
Abbreviation PostsPage := (list RawPost).

(** Modelled from the spec: the transport collaborator's
    [graph.get('posts', **params)] -- "a call with pagination enabled
    returns a lazy sequence of pages rather than one page", pagination
    being driven by [params['page']]. [posts_one] is the single page,
    [posts_paged] the (finite) sequence of pages. *)
Record PostsTransport := {
  posts_one : pydict -> PostsPage;
  posts_paged : pydict -> list PostsPage
}.

Inductive PostsResponse :=
| OnePage (p : PostsPage)
| PageSeq (ps : list PostsPage).

Definition graph_get_posts (tr : PostsTransport) (params : pydict)
    : PostsResponse :=
  match params !! "page" with
  | Some v => if py_truthy v then PageSeq (posts_paged tr params)
              else OnePage (posts_one tr params)
  | None => OnePage (posts_one tr params)
  end.

(** How the inner [for] loop is left: by [return posts] or by running
    off the end of the page. *)
Inductive LoopExit :=
| Return (posts : list Post)
| Continue (posts : list Post).

Section PostGet.
Variable D : DateUtils.
Variable edge : N.
Variable since : Z.

Fixpoint scan_page (items : PostsPage) (posts : list Post) : Result LoopExit :=
  match items with
  | [] => Ok (Continue posts)
  | raw :: rest =>
      post <- Post_init D edge raw ;;
      if Z.leb since (created_time post)
      then scan_page rest (posts ++ [post])
      else Ok (Return posts)
  end.

Fixpoint scan_pages (pages : list PostsPage) (posts : list Post) : Result (list Post) :=
  match pages with
  | [] => Ok posts
  | page :: rest =>
      ex <- scan_page page posts ;;
      match ex with
      | Return ps => Ok ps
      | Continue ps => scan_pages rest ps
      end
  end.

End PostGet.

(** [PostSelection.get]. The transport returns one page exactly when
    [params['page']] is falsy, which [if not self.params['page']:
    pages = [pages]] wraps into a one-element sequence. [meta['since']]
    is only read when the first item, once constructed, is compared with
    it. *)
Definition PostSelection_get (D : DateUtils) (tr : PostsTransport)
    (edge : N) (meta params : pydict) : Result (list Post) :=
  let resp := graph_get_posts tr params in
  page <- getitem params "page" ;;
  let pages := match resp with OnePage p => [p] | PageSeq ps => ps end in
  match meta !! "since" with
  | Some (PTime t) => scan_pages D edge t pages []
  | v =>
      match concat pages with
      | [] => Ok []
      | raw :: _ =>
          _ <- Post_init D edge raw ;;
          Err (match v with None => KeyError "since" | _ => TypeError end)
      end
  end.

(* ------------------------------------------------------------------ *)
(** ** [InsightsSelection.__repr__] *)

(** [sep.join(ws)]. *)
Fixpoint str_join (sep : string) (ws : list string) : string :=
  match ws with
  | [] => ""
  | [w] => w
  | w :: ws' => w ++ sep ++ str_join sep ws'
  end.

(** The one-character strings a Python string iterates over. *)
Fixpoint str_chars (s : string) : list string :=
  match s with
  | EmptyString => []
  | String c r => String c EmptyString :: str_chars r
  end.

(** [InsightsSelection.__repr__]. [iso_date t] is the collaborator
    [t.date().isoformat()] and [name_repr] is [repr(self.edge.name)];
    only a datetime has a [date] method. The byte strings formatted into
    the unicode template are decoded as ASCII, which raises
    [UnicodeDecodeError] on a byte of 128 or more. *)
Definition InsightsSelection___repr__ (iso_date : Z -> string) (name_repr : string)
    (meta params : pydict) : Result string :=
  metrics <- match meta !! "metrics" with
             | Some (PList ms) => Ok (str_join ", " ms)
             | Some (PStr x) => Ok (str_join ", " (str_chars x))
             | Some _ => Err TypeError
             | None => Ok "all available metrics"
             end ;;
  date <- (if _has_daterange params then
             s <- getitem meta "since" ;;
             match s with
             | PTime s =>
                 u <- getitem meta "until" ;;
                 match u with
                 | PTime u => Ok (" from " ++ iso_date s ++ " to " ++ iso_date u)
                 | _ => Err AttributeError
                 end
             | _ => Err AttributeError
             end
           else Ok "") ;;
  if ascii_str name_repr && ascii_str metrics && ascii_str date
  then Ok ("<Insights for '" ++ name_repr ++ "' (" ++ metrics ++ date ++ ")>")
  else Err UnicodeDecodeError.

(* ------------------------------------------------------------------ *)
(** ** Item access: [__getitem__] and [__iter__] *)

Section ItemAccess.
Variable A : Type.

(** The part of a selection object these methods touch: the attribute
    [_results] ([None] while it is unset) and the number of transport
    fetches made so far; [get] is the subclass's [get()], its [n]-th call
    answering [fetch n]. Only calls of [get()] that return are modelled:
    a [get()] that raises makes [__getitem__] and [__iter__] raise the
    same exception, and the theorems below say nothing about that case. *)
Record AccessState := {
  _results : option (list A);
  fetches : nat
}.

Variable fetch : nat -> list A.

Definition sel_get (st : AccessState) : list A * AccessState :=
  (fetch (fetches st), {| _results := _results st; fetches := S (fetches st) |}).

(** [Selection.__getitem__]: [self.get()[key]]. *)
Definition Selection___getitem__ (st : AccessState) (key : nat)
    : Result A * AccessState :=
  let '(r, st') := sel_get st in
  (match nth_error r key with Some x => Ok x | None => Err IndexError end, st').

(** [Selection.__iter__]: the list iterated over. *)
Definition Selection___iter__ (st : AccessState) : list A * AccessState :=
  match _results st with
  | Some r => (r, st)
  | None =>
      let '(r, st') := sel_get st in
      (r, {| _results := Some r; fetches := fetches st' |})
  end.

End ItemAccess.

(* ================================================================== *)
(** * Effect of the builder calls on the two dictionaries *)

(** The changes each builder call makes to the copied dictionaries
    ([today] is the clock reading of [datetime.today().isoformat()]). *)
Definition metrics_meta (ids : MetricsArg) (m : pydict) : pydict :=
  if metrics_truthy ids then
    match ids with
    | MList ms => <["metrics" := PList ms]> (<["single" := PBool false]> m)
    | MBare x => <["metrics" := PList [x]]> (<["single" := PBool true]> m)
    | MNone => m
    end
  else m.

Definition range_meta (D : DateUtils) (since : string) (until : option string)
    (today : string) (m : pydict) : pydict :=
  <["until" := PTime (parse_utc D (default_until today until))]>
    (<["since" := PTime (parse_utc D since)]> m).

Definition range_params (D : DateUtils) (since : string) (until : option string)
    (today : string) (p : pydict) : pydict :=
  <["until" := PInt (timestamp D (default_until today until))]>
    (<["since" := PInt (timestamp D since)]> (<["page" := PBool true]> p)).

Definition builder_meta (D : DateUtils) (b : Builder) (today : string)
    (m : pydict) : pydict :=
  match b with
  | BRange a u => range_meta D a u today m
  | BSince d => range_meta D d None today m
  | BLatest _ => m
  | BDaily ids | BWeekly ids | BMonthly ids | BLifetime ids => metrics_meta ids m
  end.

Definition builder_params (D : DateUtils) (b : Builder) (today : string)
    (p : pydict) : pydict :=
  match b with
  | BRange a u => range_params D a u today p
  | BSince d => range_params D d None today p
  | BLatest n => <["limit" := PInt n]> p
  | BDaily _ => <["period" := PStr "day"]> p
  | BWeekly _ => <["period" := PStr "week"]> p
  | BMonthly _ => <["period" := PStr "days_28"]> p
  | BLifetime _ => <["period" := PStr "lifetime"]> p
  end.

Definition is_range_builder (b : Builder) : bool :=
  match b with BRange _ _ | BSince _ => true | _ => false end.

(** Builder calls that leave [meta['metrics']] unset: every call but a
    period builder given a truthy [metrics] argument. *)
Definition no_metrics_builder (b : Builder) : bool :=
  match b with
  | BDaily ids | BWeekly ids | BMonthly ids | BLifetime ids => negb (metrics_truthy ids)
  | _ => true
  end.

(** Locations below [n] are untouched between [w] and [w']. *)
Definition frame_below (n : N) (w w' : World) : Prop :=
  forall l, (l < n)%N -> heap w' !! l = heap w !! l.

(** What a builder call guarantees: a selection of the same class and
    edge whose two dictionaries are fresh, distinct, and hold the
    updated copies of the old ones, while every dictionary that existed
    before is left as it was. *)
Definition BuilderPost (s : Selection) (w : World) (s' : Selection) (w' : World)
    (mu pu : pydict -> pydict) : Prop :=
  sel_class s' = sel_class s /\ sel_edge s' = sel_edge s /\
  (next w <= sel_meta s')%N /\ (next w <= sel_params s')%N /\
  sel_meta s' <> sel_params s' /\
  (sel_meta s' < next w')%N /\ (sel_params s' < next w')%N /\
  (next w <= next w')%N /\
  clock_now w' = clock_now w /\ clock_today w' = clock_today w /\
  frame_below (next w) w w' /\
  deref (sel_meta s') w' = mu (deref (sel_meta s) w) /\
  deref (sel_params s') w' = pu (deref (sel_params s) w).

(** A method body that only writes into the two dictionaries of the
    (cloned) selection it is given. *)
Definition body_ok (f : Selection -> World -> Selection * World)
    (mu pu : string -> pydict -> pydict) : Prop :=
  forall c w, sel_meta c <> sel_params c ->
    f c w = (c, snd (f c w)) /\
    next (snd (f c w)) = next w /\
    clock_now (snd (f c w)) = clock_now w /\
    clock_today (snd (f c w)) = clock_today w /\
    (forall l, l <> sel_meta c -> l <> sel_params c ->
       heap (snd (f c w)) !! l = heap w !! l) /\
    deref (sel_meta c) (snd (f c w)) = mu (clock_today w) (deref (sel_meta c) w) /\
    deref (sel_params c) (snd (f c w)) = pu (clock_today w) (deref (sel_params c) w).

(* ================================================================== *)
(** * The stopping rule of [PostSelection.get] as the spec words it *)

Fixpoint take_while {A} (f : A -> bool) (l : list A) : list A :=
  match l with
  | [] => []
  | x :: r => if f x then x :: take_while f r else []
  end.

(** "for each page, for each item: construct a Post; accept it if its
    [created_time] is at least [meta['since']]; the first item below the
    bound ends the entire fetch, returning the posts accepted so far":
    the Posts of the longest prefix of the items whose parsed
    [created_time] is at least [since]. *)
Definition spec_accepted_posts (D : DateUtils) (edge : N) (since : Z)
    (pages : list PostsPage) : Result (list Post) :=
  mapM (Post_init D edge)
    (take_while (fun raw => Z.leb since (parse D (raw_created_time raw)))
       (concat pages)).

(* ================================================================== *)
(** * Insights scenarios *)

Definition vrow (v : Z) (end_time : string) : ValueRow :=
  {| vr_value := JInt v; vr_end_time := Some end_time |}.

(** A transport answering the batch for the metrics ["a"] and ["b"]:
    metric [a] has values 1 and 2 at the instants [s1] and [s2], metric
    [b] has the rows [b_rows]. *)
Definition ab_transport (s1 s2 : string) (b_rows : list ValueRow) : InsightsTransport :=
  {| graph_all := fun _ _ =>
       [[{| ds_name := "a"; ds_values := [vrow 1 s1; vrow 2 s2] |}];
        [{| ds_name := "b"; ds_values := b_rows |}]];
     graph_get := fun _ => [] |}.

Definition ab_meta : pydict :=
  <["single" := PBool false]> (<["metrics" := PList ["a"; "b"]]>
    (<["since" := PTime 0]> (<["until" := PTime 0]> ∅))).

Definition plain_params : pydict := <["page" := PBool false]> ∅.

(** [meta] after [daily(metric)] with a bare metric name. *)
Definition single_meta (m : string) : pydict :=
  <["single" := PBool true]> (<["metrics" := PList [m]]>
    (<["since" := PTime 0]> (<["until" := PTime 0]> ∅))).

(** A transport whose every result has an empty [data] list. *)
Definition empty_transport : InsightsTransport :=
  {| graph_all := fun ms _ => map (fun _ => []) ms; graph_get := fun _ => [] |}.

(* ================================================================== *)
(** * Concrete inputs *)

(** A date collaborator for concrete runs: timestamps are read as
    decimal numbers of days since the epoch (an instant is in
    microseconds). *)
Fixpoint digits_value (s : string) (acc : Z) : Z :=
  match s with
  | EmptyString => acc
  | String c r => digits_value r (acc * 10 + (Z.of_nat (nat_of_ascii c) - 48))%Z
  end.

Definition sample_dates : DateUtils :=
  {| COMMON_ERA := 0;
     parse := fun s => (digits_value s 0 * day_us)%Z;
     parse_utc := fun s => (digits_value s 0 * day_us)%Z;
     timestamp := fun s => (digits_value s 0 * 86400)%Z |}.

Definition sample_world : World := mkWorld ∅ 0 (200 * day_us)%Z "200".

(** The [params] invariant: [page] is [r], and [since] and [until] are
    keys exactly when [r] is true. *)
Definition page_inv (r : bool) (p : pydict) : Prop :=
  p !! "page" = Some (PBool r) /\
  (is_Some (p !! "since") <-> r = true) /\
  (is_Some (p !! "until") <-> r = true).

(** Posts and insights transports for concrete runs. *)
Definition sample_post (created : string) : RawPost :=
  {| raw_id := "p" ++ created; raw_type := "status"; raw_created_time := created;
     raw_updated_time := created; raw_name := None; raw_link := None;
     raw_description := None; raw_picture := None |}%string.

(** An item whose picture is a proxied URL without [w]. *)
Definition picture_post (created : string) : RawPost :=
  {| raw_id := "p" ++ created; raw_type := "photo"; raw_created_time := created;
     raw_updated_time := created; raw_name := None; raw_link := None;
     raw_description := None;
     raw_picture := Some "http://x.com/safe_image.php?url=http://a.com/b.jpg" |}%string.

Definition picture_posts_transport : PostsTransport :=
  {| posts_one := fun _ => [picture_post "120"; sample_post "110"];
     posts_paged := fun _ => [[picture_post "120"; sample_post "110"]] |}.

Definition sample_posts_transport : PostsTransport :=
  {| posts_one := fun _ => [sample_post "160"; sample_post "120"];
     posts_paged := fun _ => [[sample_post "190"; sample_post "170"];
                              [sample_post "160"; sample_post "140"; sample_post "180"];
                              [sample_post "130"]] |}.

Definition sample_insights_transport : InsightsTransport :=
  {| graph_all := fun ms _ =>
       map (fun m => [{| ds_name := m;
                         ds_values := [{| vr_value := JInt 1; vr_end_time := Some "101" |};
                                       {| vr_value := JInt 2; vr_end_time := Some "102" |}] |}]) ms;
     graph_get := fun _ =>
       [{| ds_name := "a";
           ds_values := [{| vr_value := JInt 1; vr_end_time := Some "101" |}] |}] |}.

Definition ranged_meta (since until : Z) (ms : list string) : pydict :=
  <["single" := PBool false]> (<["metrics" := PList ms]>
    (<["since" := PTime since]> (<["until" := PTime until]> ∅))).

Definition ranged_params : pydict :=
  <["until" := PInt 0]> (<["since" := PInt 0]> (<["page" := PBool true]> ∅)).

(** Neither ['metrics'] nor ['single'] is a key of [meta]. *)
Definition meta_inv (m : pydict) : Prop :=
  m !! "metrics" = None /\ m !! "single" = None.

(** The shape of [meta] kept by the builder calls: [since] and [until]
    are instants; [metrics] and [single] are both unset, or [metrics] is
    a non-empty list and [single] says whether it was a bare name (then
    the list has one element). *)
Definition meta_ok (m : pydict) : Prop :=
  (exists s, m !! "since" = Some (PTime s)) /\ (exists u, m !! "until" = Some (PTime u)) /\
  ((m !! "metrics" = None /\ m !! "single" = None) \/
   (exists ms, m !! "metrics" = Some (PList ms) /\ ms <> [] /\
      (m !! "single" = Some (PBool false) \/
       (m !! "single" = Some (PBool true) /\ length ms = 1)))).

(* ================================================================== *)
(** * Reading the pivot *)

(** [data[b][m]] for the pivot's [data]. *)
Definition lookup2 (b : Bucket) (m : string) (data : PivotData) : option json :=
  match assoc_get b data with Some vals => assoc_get m vals | None => None end.

(** The last element of [l], or [d] when [l] is empty. *)
Definition last_or {A} (l : list A) (d : option A) : option A :=
  match rev l with v :: _ => Some v | [] => d end.

(** The values the datasets report for the metric [m] at the bucket [b],
    in the order [get] reads them. *)
Definition metric_values (D : DateUtils) (m : string) (b : Bucket) (dss : list Dataset)
    : list json :=
  flat_map (fun ds =>
    if String.eqb m (ds_name ds)
    then map vr_value (List.filter (fun r => bool_decide (bucket_of D r = b)) (ds_values ds))
    else []) dss.

(* ================================================================== *)
(** * Proofs *)

Open Scope list_scope.

(** ** Dictionary primitives *)

Lemma setitem_heap_ne l k v w l' :
  l' <> l -> heap (setitem l k v w) !! l' = heap w !! l'.
Proof. intros H. unfold setitem, with_heap; simpl. by rewrite lookup_insert_ne. Qed.

Lemma deref_setitem_eq l k v w :
  deref l (setitem l k v w) = <[k := v]> (deref l w).
Proof. unfold deref at 1, setitem, with_heap; simpl. by rewrite lookup_insert_eq. Qed.

Lemma deref_setitem_ne l k v w l' :
  l' <> l -> deref l' (setitem l k v w) = deref l' w.
Proof. intros H. unfold deref. by rewrite setitem_heap_ne. Qed.

Ltac deref_simpl :=
  repeat first
    [ rewrite deref_setitem_eq
    | rewrite deref_setitem_ne by congruence
    | rewrite setitem_heap_ne by congruence ].

Lemma range_body_ok D a u :
  body_ok (range_body D a u) (range_meta D a u) (range_params D a u).
Proof.
  intros c w Hne. unfold range_body; cbn zeta; cbn [snd].
  repeat split; try reflexivity.
  - intros l H1 H2. deref_simpl. reflexivity.
  - deref_simpl. reflexivity.
  - deref_simpl. reflexivity.
Qed.

Lemma latest_body_ok n :
  body_ok (fun c w => (c, setitem (sel_params c) "limit" (PInt n) w))
    (fun _ m => m) (fun _ p => <["limit" := PInt n]> p).
Proof.
  intros c w Hne; cbn [snd].
  repeat split; try reflexivity.
  - intros l H1 H2. deref_simpl. reflexivity.
  - deref_simpl. reflexivity.
  - deref_simpl. reflexivity.
Qed.

Lemma period_body_ok period ids :
  body_ok (fun c w => InsightsSelection__metrics c ids
                        (setitem (sel_params c) "period" (PStr period) w))
    (fun _ m => metrics_meta ids m) (fun _ p => <["period" := PStr period]> p).
Proof.
  intros c w Hne. unfold InsightsSelection__metrics, metrics_meta.
  destruct (metrics_truthy ids); [destruct ids|]; cbn [snd];
    repeat split; try reflexivity;
    try (intros l H1 H2); deref_simpl; reflexivity.
Qed.

(** ** Clone-then-mutate *)

Lemma immutable_post D f mu pu s w :
  (sel_meta s < next w)%N -> (sel_params s < next w)%N -> body_ok f mu pu ->
  BuilderPost s w (fst (immutable D f s w)) (snd (immutable D f s w))
    (mu (clock_today w)) (pu (clock_today w)).
Proof.
  intros Hm Hp Hf. unfold immutable, clone, Selection_init, alloc.
  cbn [fst snd sel_class sel_edge next heap with_heap].
  set (c := mkSel _ _ _ _).
  set (w1 := with_heap _ _ _).
  assert (Hc : sel_meta c <> sel_params c) by (simpl; lia).
  destruct (Hf c w1 Hc) as (Hfc & Hn & Hcn & Hct & Hfr & Hfm & Hfp).
  rewrite Hfc. cbn [fst snd].
  set (w2 := snd (f c w1)) in *.
  unfold BuilderPost.
  rewrite Hn, Hcn, Hct, Hfm, Hfp.
  unfold w1, c, with_heap, deref; cbn [sel_meta sel_params sel_class sel_edge
    next heap clock_now clock_today].
  repeat split; try reflexivity; try lia.
  - intros l Hl. rewrite Hfr by (simpl; lia). simpl.
    rewrite !lookup_insert_ne by lia. reflexivity.
  - rewrite lookup_insert_ne by lia. rewrite lookup_insert_eq. simpl.
    rewrite !lookup_insert_ne by lia. reflexivity.
  - rewrite lookup_insert_eq. simpl.
    rewrite !lookup_insert_ne by lia. reflexivity.
Qed.

Lemma BuilderPost_trans s w s1 w1 s2 w2 mu1 pu1 mu2 pu2 :
  BuilderPost s w s1 w1 mu1 pu1 -> BuilderPost s1 w1 s2 w2 mu2 pu2 ->
  BuilderPost s w s2 w2 (fun m => mu2 (mu1 m)) (fun p => pu2 (pu1 p)).
Proof.
  unfold BuilderPost, frame_below.
  intros (Hc1 & He1 & Hm1 & Hp1 & Hd1 & Hml1 & Hpl1 & Hn1 & Hcn1 & Hct1 & Hf1 & Hmu1 & Hpu1)
         (Hc2 & He2 & Hm2 & Hp2 & Hd2 & Hml2 & Hpl2 & Hn2 & Hcn2 & Hct2 & Hf2 & Hmu2 & Hpu2).
  repeat split; try congruence; try lia.
  intros l Hl. rewrite Hf2 by lia. apply Hf1; lia.
Qed.

Lemma clone_post D s w :
  (sel_meta s < next w)%N -> (sel_params s < next w)%N ->
  BuilderPost s w (fst (clone D s w)) (snd (clone D s w)) (fun m => m) (fun p => p).
Proof.
  intros Hm Hp.
  assert (E : immutable D (fun c w => (c, w)) s w = clone D s w).
  { unfold immutable. destruct (clone D s w); reflexivity. }
  rewrite <- E.
  apply (immutable_post D (fun c w => (c, w)) (fun _ m => m) (fun _ p => p)); auto.
  intros c w' _; cbn [snd]. repeat split; reflexivity.
Qed.

Lemma range_post D s a u w :
  (sel_meta s < next w)%N -> (sel_params s < next w)%N ->
  BuilderPost s w (fst (Selection_range D s a u w)) (snd (Selection_range D s a u w))
    (range_meta D a u (clock_today w)) (range_params D a u (clock_today w)).
Proof.
  intros Hm Hp. apply immutable_post; auto. apply range_body_ok.
Qed.

Lemma since_post D s d w :
  (sel_meta s < next w)%N -> (sel_params s < next w)%N ->
  BuilderPost s w (fst (Selection_since D s d w)) (snd (Selection_since D s d w))
    (range_meta D d None (clock_today w)) (range_params D d None (clock_today w)).
Proof.
  intros Hm Hp.
  pose proof (clone_post D s w Hm Hp) as H1.
  assert (E : Selection_since D s d w =
              Selection_range D (fst (clone D s w)) d None (snd (clone D s w))).
  { unfold Selection_since, immutable at 1. destruct (clone D s w); reflexivity. }
  rewrite E.
  pose proof H1 as (_ & _ & _ & _ & _ & Hml1 & Hpl1 & _ & _ & Hct1 & _).
  pose proof (range_post D (fst (clone D s w)) d None (snd (clone D s w)) Hml1 Hpl1) as H2.
  rewrite Hct1 in H2.
  exact (BuilderPost_trans _ _ _ _ _ _ _ _ _ _ H1 H2).
Qed.

Lemma pair_inv {A B} (x : A * B) a b : Some x = Some (a, b) -> a = fst x /\ b = snd x.
Proof. intros H. injection H as ->. split; reflexivity. Qed.

Lemma apply_builder_post D s b w s' w' :
  (sel_meta s < next w)%N -> (sel_params s < next w)%N ->
  apply_builder D s b w = Some (s', w') ->
  BuilderPost s w s' w' (builder_meta D b (clock_today w))
    (builder_params D b (clock_today w)).
Proof.
  intros Hm Hp Hb. unfold apply_builder in Hb.
  destruct b, (sel_class s); try discriminate;
    destruct (pair_inv _ _ _ Hb) as [-> ->]; cbn [builder_meta builder_params].
  all: match goal with
    | |- BuilderPost _ _ (fst (Selection_range _ _ _ _ _)) _ _ _ =>
        apply range_post; auto
    | |- BuilderPost _ _ (fst (Selection_since _ _ _ _)) _ _ _ =>
        apply since_post; auto
    | |- BuilderPost _ _ (fst (PostSelection_latest _ _ ?n _)) _ _ _ =>
        apply (immutable_post D _ (fun _ m => m) (fun _ p => <["limit" := PInt n]> p));
        auto; apply latest_body_ok
    | |- BuilderPost _ _ (fst (_ _ _ ?ids _)) _ _ _ =>
        apply (immutable_post D _ (fun _ m => metrics_meta ids m)); auto;
        apply period_body_ok
    end.
Qed.

(** ** The parameters dictionary under builder calls *)

Lemma page_inv_step D b today r (p : pydict) :
  page_inv r p -> page_inv (r || is_range_builder b) (builder_params D b today p).
Proof.
  intros (Hpg & Hs & Hu).
  destruct b; cbn [builder_params is_range_builder]; rewrite ?orb_true_r, ?orb_false_r;
    unfold range_params, page_inv.
  1,2: rewrite !lookup_insert_ne by discriminate; rewrite lookup_insert_eq;
       rewrite lookup_insert_eq; rewrite lookup_insert_ne by discriminate;
       rewrite lookup_insert_eq; repeat split; eauto.
  all: rewrite !lookup_insert_ne by discriminate; auto.
Qed.

Lemma run_builders_page_inv D bs : forall s w s' w' r,
  (sel_meta s < next w)%N -> (sel_params s < next w)%N ->
  page_inv r (deref (sel_params s) w) ->
  run_builders D s bs w = Some (s', w') ->
  page_inv (r || existsb is_range_builder bs) (deref (sel_params s') w').
Proof.
  induction bs as [|b bs IH]; intros s w s' w' r Hm Hp Hinv Hrun; simpl in Hrun.
  - injection Hrun as <- <-. simpl. by rewrite orb_false_r.
  - destruct (apply_builder D s b w) as [[s1 w1]|] eqn:Eb; [|discriminate].
    pose proof (apply_builder_post D s b w s1 w1 Hm Hp Eb)
      as (_ & _ & _ & _ & _ & Hm1 & Hp1 & _ & _ & _ & _ & _ & Hpu).
    simpl. rewrite orb_assoc.
    apply (IH s1 w1); auto.
    rewrite Hpu. by apply page_inv_step.
Qed.

Lemma Selection_init_shape D c edge w :
  let '(s0, w0) := Selection_init D c edge w in
  (sel_meta s0 < next w0)%N /\ (sel_params s0 < next w0)%N /\
  sel_class s0 = c /\ sel_edge s0 = edge /\
  deref (sel_params s0) w0 = <["page" := PBool false]> ∅.
Proof.
  unfold Selection_init, alloc, with_heap, deref; cbn.
  repeat split; try lia. by rewrite lookup_insert_eq.
Qed.

(** ** C5 *)

(** Claim C5: every builder call ([range], [since], [latest], [daily],
    [weekly], [monthly], [lifetime]) returns a selection of the same class
    and edge whose [meta] and [params] are fresh dictionaries (distinct
    from each other and from every dictionary that existed before),
    holding the updated copies of [s]'s; [s]'s own dictionaries, and every
    other existing one, are unchanged. *)
Theorem builder_returns_fresh_copy D s b w s' w' :
  (sel_meta s < next w)%N -> (sel_params s < next w)%N ->
  apply_builder D s b w = Some (s', w') ->
  sel_class s' = sel_class s /\ sel_edge s' = sel_edge s /\
  sel_meta s' <> sel_meta s /\ sel_meta s' <> sel_params s /\
  sel_params s' <> sel_meta s /\ sel_params s' <> sel_params s /\
  sel_meta s' <> sel_params s' /\
  heap w' !! sel_meta s = heap w !! sel_meta s /\
  heap w' !! sel_params s = heap w !! sel_params s /\
  (forall l, (l < next w)%N -> heap w' !! l = heap w !! l) /\
  deref (sel_meta s') w' = builder_meta D b (clock_today w) (deref (sel_meta s) w) /\
  deref (sel_params s') w' = builder_params D b (clock_today w) (deref (sel_params s) w).
Proof.
  intros Hm Hp Hb.
  destruct (apply_builder_post D s b w s' w' Hm Hp Hb)
    as (Hc & He & Hm' & Hp' & Hd & _ & _ & _ & _ & _ & Hf & Hmu & Hpu).
  repeat split; auto; try lia.
Qed.

Lemma builder_returns_fresh_copy_witness :
  let s0 := fst (Selection_init sample_dates CPostSelection 7 sample_world) in
  let w0 := snd (Selection_init sample_dates CPostSelection 7 sample_world) in
  let r := PostSelection_latest sample_dates s0 5 w0 in
  ((sel_meta s0 < next w0)%N /\ (sel_params s0 < next w0)%N /\
   apply_builder sample_dates s0 (BLatest 5) w0 = Some (fst r, snd r)) /\
  (sel_class (fst r) = sel_class s0 /\ sel_edge (fst r) = sel_edge s0 /\
   sel_meta (fst r) <> sel_meta s0 /\ sel_meta (fst r) <> sel_params s0 /\
   sel_params (fst r) <> sel_meta s0 /\ sel_params (fst r) <> sel_params s0 /\
   sel_meta (fst r) <> sel_params (fst r) /\
   heap (snd r) !! sel_meta s0 = heap w0 !! sel_meta s0 /\
   heap (snd r) !! sel_params s0 = heap w0 !! sel_params s0 /\
   (forall l, (l < next w0)%N -> heap (snd r) !! l = heap w0 !! l) /\
   deref (sel_meta (fst r)) (snd r) =
     builder_meta sample_dates (BLatest 5) (clock_today w0) (deref (sel_meta s0) w0) /\
   deref (sel_params (fst r)) (snd r) =
     builder_params sample_dates (BLatest 5) (clock_today w0) (deref (sel_params s0) w0)).
Proof.
  intros s0 w0 r.
  assert (H1 : (sel_meta s0 < next w0)%N) by (vm_compute; reflexivity).
  assert (H2 : (sel_params s0 < next w0)%N) by (vm_compute; reflexivity).
  assert (H3 : apply_builder sample_dates s0 (BLatest 5) w0 = Some (fst r, snd r))
    by (vm_compute; reflexivity).
  split; [split; [exact H1 | split; [exact H2 | exact H3]] |].
  exact (builder_returns_fresh_copy sample_dates s0 (BLatest 5) w0 (fst r) (snd r) H1 H2 H3).
Defined.

(** ** C6 *)

(** Claim C6: for every selection obtained from a factory followed by
    any chain of builder calls, [params['page']] is [True] exactly when
    [range] or [since] occurs in the chain, exactly when
    [_has_daterange] holds, and exactly when [since] (resp. [until]) is a
    key of [params]; otherwise it is [False]. A fresh selection (empty
    chain) has [page = False]. *)
Theorem page_iff_daterange D c edge bs w s' w' :
  reachable D c edge bs w = Some (s', w') ->
  let p := deref (sel_params s') w' in
  (p !! "page" = Some (PBool true) <-> existsb is_range_builder bs = true) /\
  (p !! "page" = Some (PBool true) <-> _has_daterange p = true) /\
  (p !! "page" = Some (PBool true) <-> is_Some (p !! "since")) /\
  (p !! "page" = Some (PBool true) <-> is_Some (p !! "until")) /\
  (p !! "page" = Some (PBool false) \/ p !! "page" = Some (PBool true)).
Proof.
  intros Hr. unfold reachable in Hr. set (p := deref (sel_params s') w').
  pose proof (Selection_init_shape D c edge w) as Hi.
  destruct (Selection_init D c edge w) as [s0 w0].
  destruct Hi as (Hm & Hp & _ & _ & Hd).
  assert (Hinv : page_inv false (deref (sel_params s0) w0)).
  { rewrite Hd. unfold page_inv.
    rewrite lookup_insert_eq, !lookup_insert_ne by discriminate.
    rewrite lookup_empty. repeat split; try discriminate; intros [? H]; discriminate. }
  pose proof (run_builders_page_inv D bs s0 w0 s' w' false Hm Hp Hinv Hr)
    as (Hpg & Hs & Hu).
  simpl in Hpg, Hs, Hu. fold p in Hpg, Hs, Hu.
  unfold _has_daterange.
  rewrite Hpg.
  destruct (existsb is_range_builder bs) eqn:E.
  - assert (Hs' : is_Some (p !! "since")) by (apply Hs; reflexivity).
    assert (Hu' : is_Some (p !! "until")) by (apply Hu; reflexivity).
    rewrite !bool_decide_eq_true_2 by assumption.
    repeat split; intros; auto.
  - assert (Hs' : ~ is_Some (p !! "since")) by (intros H; apply Hs in H; discriminate).
    assert (Hu' : ~ is_Some (p !! "until")) by (intros H; apply Hu in H; discriminate).
    rewrite !bool_decide_eq_false_2 by assumption.
    repeat split; try (left; reflexivity); intros H; try discriminate; contradiction.
Qed.

Lemma page_iff_daterange_witness :
  let r := reachable sample_dates CPostSelection 7 [BLatest 3; BSince "150"] sample_world in
  r = Some (fst (default (fst (Selection_init sample_dates CPostSelection 7 sample_world),
                          sample_world) r),
            snd (default (fst (Selection_init sample_dates CPostSelection 7 sample_world),
                          sample_world) r)) /\
  let s' := fst (default (fst (Selection_init sample_dates CPostSelection 7 sample_world),
                          sample_world) r) in
  let w' := snd (default (fst (Selection_init sample_dates CPostSelection 7 sample_world),
                          sample_world) r) in
  let p := deref (sel_params s') w' in
  (p !! "page" = Some (PBool true) <-> existsb is_range_builder [BLatest 3; BSince "150"] = true) /\
  (p !! "page" = Some (PBool true) <-> _has_daterange p = true) /\
  (p !! "page" = Some (PBool true) <-> is_Some (p !! "since")) /\
  (p !! "page" = Some (PBool true) <-> is_Some (p !! "until")) /\
  (p !! "page" = Some (PBool false) \/ p !! "page" = Some (PBool true)).
Proof.
  intros r.
  assert (H : r = Some (fst (default (fst (Selection_init sample_dates CPostSelection 7
                                             sample_world), sample_world) r),
                        snd (default (fst (Selection_init sample_dates CPostSelection 7
                                             sample_world), sample_world) r)))
    by (vm_compute; reflexivity).
  split; [exact H|].
  exact (page_iff_daterange sample_dates CPostSelection 7 [BLatest 3; BSince "150"]
           sample_world _ _ H).
Defined.

(** ** C7 *)

(** Claim C7: [since(d)] and [range(d)] (with [until] defaulted to the
    clock's [datetime.today().isoformat()]) return selections of the same
    class and edge with equal [meta] and equal [params] contents, hence
    the same [get()] results for every transport. *)
Theorem since_is_range D s d w :
  (sel_meta s < next w)%N -> (sel_params s < next w)%N ->
  let s1 := fst (Selection_since D s d w) in
  let w1 := snd (Selection_since D s d w) in
  let s2 := fst (Selection_range D s d None w) in
  let w2 := snd (Selection_range D s d None w) in
  sel_class s1 = sel_class s2 /\ sel_edge s1 = sel_edge s2 /\
  deref (sel_meta s1) w1 = deref (sel_meta s2) w2 /\
  deref (sel_params s1) w1 = deref (sel_params s2) w2 /\
  deref (sel_meta s1) w1 = range_meta D d (Some (clock_today w)) (clock_today w)
                             (deref (sel_meta s) w) /\
  (forall tr, PostSelection_get D tr (sel_edge s1) (deref (sel_meta s1) w1)
                (deref (sel_params s1) w1) =
              PostSelection_get D tr (sel_edge s2) (deref (sel_meta s2) w2)
                (deref (sel_params s2) w2)) /\
  (forall tr, InsightsSelection_get D tr (deref (sel_meta s1) w1)
                (deref (sel_params s1) w1) =
              InsightsSelection_get D tr (deref (sel_meta s2) w2)
                (deref (sel_params s2) w2)).
Proof.
  intros Hm Hp s1 w1 s2 w2.
  destruct (since_post D s d w Hm Hp) as (Hc1 & He1 & _ & _ & _ & _ & _ & _ & _ & _ & _ & Hmu1 & Hpu1).
  destruct (range_post D s d None w Hm Hp) as (Hc2 & He2 & _ & _ & _ & _ & _ & _ & _ & _ & _ & Hmu2 & Hpu2).
  fold s1 w1 in Hc1, He1, Hmu1, Hpu1. fold s2 w2 in Hc2, He2, Hmu2, Hpu2.
  assert (Em : deref (sel_meta s1) w1 = deref (sel_meta s2) w2) by congruence.
  assert (Ep : deref (sel_params s1) w1 = deref (sel_params s2) w2) by congruence.
  assert (Ee : sel_edge s1 = sel_edge s2) by congruence.
  repeat split; try congruence.
  all: try (intros tr; rewrite ?Ee, ?Em, ?Ep; reflexivity).
  rewrite Hmu1. unfold range_meta, default_until.
  destruct (String.eqb (clock_today w) "") eqn:E; [|reflexivity].
  apply String.eqb_eq in E. rewrite E. reflexivity.
Qed.

Lemma since_is_range_witness :
  let s0 := fst (Selection_init sample_dates CInsightsSelection 7 sample_world) in
  let w0 := snd (Selection_init sample_dates CInsightsSelection 7 sample_world) in
  ((sel_meta s0 < next w0)%N /\ (sel_params s0 < next w0)%N) /\
  let s1 := fst (Selection_since sample_dates s0 "150" w0) in
  let w1 := snd (Selection_since sample_dates s0 "150" w0) in
  let s2 := fst (Selection_range sample_dates s0 "150" None w0) in
  let w2 := snd (Selection_range sample_dates s0 "150" None w0) in
  sel_class s1 = sel_class s2 /\ sel_edge s1 = sel_edge s2 /\
  deref (sel_meta s1) w1 = deref (sel_meta s2) w2 /\
  deref (sel_params s1) w1 = deref (sel_params s2) w2 /\
  deref (sel_meta s1) w1 = range_meta sample_dates "150" (Some (clock_today w0))
                             (clock_today w0) (deref (sel_meta s0) w0) /\
  (forall tr, PostSelection_get sample_dates tr (sel_edge s1) (deref (sel_meta s1) w1)
                (deref (sel_params s1) w1) =
              PostSelection_get sample_dates tr (sel_edge s2) (deref (sel_meta s2) w2)
                (deref (sel_params s2) w2)) /\
  (forall tr, InsightsSelection_get sample_dates tr (deref (sel_meta s1) w1)
                (deref (sel_params s1) w1) =
              InsightsSelection_get sample_dates tr (deref (sel_meta s2) w2)
                (deref (sel_params s2) w2)).
Proof.
  intros s0 w0.
  assert (H1 : (sel_meta s0 < next w0)%N) by (vm_compute; reflexivity).
  assert (H2 : (sel_params s0 < next w0)%N) by (vm_compute; reflexivity).
  split; [split; assumption|].
  exact (since_is_range sample_dates s0 "150" w0 H1 H2).
Defined.

(** ** PostSelection.get *)

Lemma take_while_app {A} (f : A -> bool) (l r : list A) :
  take_while f (l ++ r) =
  if forallb f l then l ++ take_while f r else take_while f l.
Proof.
  induction l as [|x l IH]; simpl; [reflexivity|].
  destruct (f x); simpl; [rewrite IH; destruct (forallb f l); reflexivity | reflexivity].
Qed.

Lemma take_while_all {A} (f : A -> bool) (l : list A) :
  forallb f l = true -> take_while f l = l.
Proof.
  induction l as [|x l IH]; simpl; [reflexivity|].
  intros H. apply andb_true_iff in H as [-> H]. by rewrite IH.
Qed.

Lemma mapM_app {A B} (f : A -> Result B) (l1 l2 : list A) :
  mapM f (l1 ++ l2) = (ys1 <- mapM f l1 ;; ys2 <- mapM f l2 ;; Ok (ys1 ++ ys2)).
Proof.
  induction l1 as [|x l1 IH]; cbn [app mapM bind].
  - destruct (mapM f l2); reflexivity.
  - destruct (f x) as [y|e]; cbn [bind]; [|reflexivity].
    rewrite IH. destruct (mapM f l1) as [ys1|e]; cbn [bind]; [|reflexivity].
    destruct (mapM f l2); reflexivity.
Qed.

Lemma Post_init_created D edge raw p :
  Post_init D edge raw = Ok p -> created_time p = parse D (raw_created_time raw).
Proof.
  unfold Post_init. destruct (raw_picture raw) as [pic|]; cbn [bind].
  - destruct (Picture_init pic); cbn [bind]; intros H; [|discriminate].
    injection H as <-. reflexivity.
  - intros H. injection H as <-. reflexivity.
Qed.

Lemma scan_page_spec D edge t items : forall acc,
  List.Forall (fun raw => exists p, Post_init D edge raw = Ok p) items ->
  exists ps,
    mapM (Post_init D edge)
      (take_while (fun raw => Z.leb t (parse D (raw_created_time raw))) items) = Ok ps /\
    scan_page D edge t items acc =
      Ok ((if forallb (fun raw => Z.leb t (parse D (raw_created_time raw))) items
           then Continue else Return) (acc ++ ps)).
Proof.
  induction items as [|raw items IH]; intros acc Hall.
  - exists []. cbn. by rewrite app_nil_r.
  - inversion Hall as [|? ? [p Hp] Hrest]; subst.
    cbn [scan_page take_while forallb]. rewrite Hp. cbn [bind].
    rewrite (Post_init_created D edge raw p Hp).
    destruct (Z.leb t (parse D (raw_created_time raw))); cbn [andb].
    + destruct (IH (acc ++ [p]) Hrest) as (ps & Hm & Hs).
      exists (p :: ps). cbn [mapM]. rewrite Hp, Hm. cbn [bind].
      split; [reflexivity|]. rewrite Hs, <- app_assoc. reflexivity.
    + exists []. split; [reflexivity|]. by rewrite app_nil_r.
Qed.

Lemma scan_pages_spec D edge t pages : forall acc,
  List.Forall (fun raw => exists p, Post_init D edge raw = Ok p) (concat pages) ->
  exists ps,
    mapM (Post_init D edge)
      (take_while (fun raw => Z.leb t (parse D (raw_created_time raw))) (concat pages))
      = Ok ps /\
    scan_pages D edge t pages acc = Ok (acc ++ ps).
Proof.
  induction pages as [|pg pages IH]; intros acc Hall.
  - exists []. cbn. by rewrite app_nil_r.
  - cbn [concat] in Hall |- *. apply List.Forall_app in Hall as [Hpg Hrest].
    destruct (scan_page_spec D edge t pg acc Hpg) as (ps1 & Hm1 & Hs1).
    cbn [scan_pages]. rewrite Hs1. cbn [bind]. rewrite take_while_app.
    destruct (forallb _ pg) eqn:E.
    + destruct (IH (acc ++ ps1) Hrest) as (ps2 & Hm2 & Hs2).
      exists (ps1 ++ ps2). rewrite mapM_app.
      rewrite (take_while_all _ pg E) in Hm1. rewrite Hm1, Hm2. cbn [bind].
      split; [reflexivity|]. rewrite Hs2, app_assoc. reflexivity.
    + exists ps1. split; [exact Hm1|reflexivity].
Qed.

(** ** C1 *)

(** Claim C1 (code bug): when every item of the pages constructs a
    [Post], [PostSelection.get] scans the pages in order and the items of
    each page in order, and returns exactly the posts of the longest
    prefix of the concatenated items whose [created_time] is at least
    [meta['since']], stopping the whole fetch at the first item below the
    bound; an item below the bound at the head of the first page then
    gives the empty list. But each item is turned into a [Post] before it
    is compared with the bound, and [Post.__init__] builds the item's
    [Picture]: when that raises for the first item of the first page,
    [get()] raises the same error, whatever the item's [created_time]. *)
Theorem post_get_stopping_rule D tr edge (meta params : pydict) t pg :
  meta !! "since" = Some (PTime t) -> params !! "page" = Some pg ->
  let pages := if py_truthy pg then posts_paged tr params
               else [posts_one tr params] in
  (List.Forall (fun raw => exists p, Post_init D edge raw = Ok p) (concat pages) ->
   exists posts,
     spec_accepted_posts D edge t pages = Ok posts /\
     PostSelection_get D tr edge meta params = Ok posts /\
     (forall raw rest more, pages = (raw :: rest) :: more ->
        (parse D (raw_created_time raw) < t)%Z -> posts = [])) /\
  (forall raw rest more e, pages = (raw :: rest) :: more ->
     Post_init D edge raw = Err e ->
     PostSelection_get D tr edge meta params = Err e).
Proof.
  intros Hs Hp pages.
  assert (E : PostSelection_get D tr edge meta params = scan_pages D edge t pages []).
  { unfold PostSelection_get, getitem, graph_get_posts.
    rewrite Hp, Hs. cbn [bind]. unfold pages.
    destruct (py_truthy pg); reflexivity. }
  split.
  - intros Hall.
    destruct (scan_pages_spec D edge t pages [] Hall) as (ps & Hm & Hsc).
    exists ps. split; [exact Hm|split; [rewrite E, Hsc; reflexivity|]].
    intros raw rest more Hpg Hlt. rewrite Hpg in Hm. cbn in Hm.
    destruct (Z.leb_spec t (parse D (raw_created_time raw))); [lia|].
    cbn in Hm. injection Hm as <-. reflexivity.
  - intros raw rest more e Hpg He. rewrite E, Hpg. cbn [scan_pages scan_page].
    rewrite He. reflexivity.
Qed.

Lemma post_get_stopping_rule_witness :
  let meta : pydict := <["since" := PTime (150 * day_us)%Z]> ∅ in
  let params : pydict := <["page" := PBool true]> ∅ in
  let pages := if py_truthy (PBool true) then posts_paged sample_posts_transport params
               else [posts_one sample_posts_transport params] in
  (meta !! "since" = Some (PTime (150 * day_us)%Z) /\
   params !! "page" = Some (PBool true) /\
   List.Forall (fun raw => exists p, Post_init sample_dates 7 raw = Ok p) (concat pages)) /\
  (exists posts,
     spec_accepted_posts sample_dates 7 (150 * day_us)%Z pages = Ok posts /\
     PostSelection_get sample_dates sample_posts_transport 7 meta params = Ok posts /\
     (forall raw rest more, pages = (raw :: rest) :: more ->
        (parse sample_dates (raw_created_time raw) < 150 * day_us)%Z -> posts = [])) /\
  PostSelection_get sample_dates picture_posts_transport 7 meta params =
    Err (KeyError "w").
Proof.
  intros meta params pages.
  assert (H1 : meta !! "since" = Some (PTime (150 * day_us)%Z)) by reflexivity.
  assert (H2 : params !! "page" = Some (PBool true)) by reflexivity.
  assert (H3 : List.Forall (fun raw => exists p, Post_init sample_dates 7 raw = Ok p)
                 (concat pages)).
  { repeat constructor; eexists; reflexivity. }
  split; [split; [exact H1|split; [exact H2|exact H3]]|].
  split.
  - exact (proj1 (post_get_stopping_rule sample_dates sample_posts_transport 7 meta params
                    (150 * day_us)%Z (PBool true) H1 H2) H3).
  - exact (proj2 (post_get_stopping_rule sample_dates picture_posts_transport 7 meta params
                    (150 * day_us)%Z (PBool true) H1 H2)
             (picture_post "120") [sample_post "110"] [] (KeyError "w")
             eq_refl ltac:(vm_compute; reflexivity)).
Defined.

Example post_get_sample :
  PostSelection_get sample_dates sample_posts_transport 7
    (<["since" := PTime (150 * day_us)%Z]> ∅) (<["page" := PBool true]> ∅) =
  mapM (Post_init sample_dates 7)
    [sample_post "190"; sample_post "170"; sample_post "160"].
Proof. vm_compute. reflexivity. Qed.

(** ** Which exceptions the later stages of [InsightsSelection.get] raise *)

Lemma bind_err {A B} (r : Result A) (k : A -> Result B) e :
  bind r k = Err e -> r = Err e \/ exists a, r = Ok a /\ k a = Err e.
Proof. destruct r as [a|e0]; simpl; intros H; [right; exists a; split; [reflexivity|exact H] | left; injection H as ->; reflexivity]. Qed.

Lemma mapM_err {A B} (f : A -> Result B) (l : list A) e :
  mapM f l = Err e -> exists x, In x l /\ f x = Err e.
Proof.
  induction l as [|x l IH]; simpl; [discriminate|].
  intros H. apply bind_err in H as [H|(y & _ & H)]; [eauto|].
  apply bind_err in H as [H|(ys & _ & H)]; [|discriminate].
  destruct (IH H) as (z & Hz & Hfz). eauto.
Qed.

Lemma mapM_Forall2 {A B} (f : A -> Result B) l l' :
  mapM f l = Ok l' -> Forall2 (fun x y => f x = Ok y) l l'.
Proof.
  revert l'. induction l as [|x l IH]; intros l'; simpl.
  - intros H. injection H as <-. constructor.
  - destruct (f x) as [y|e] eqn:Ef; simpl; [|discriminate].
    destruct (mapM f l) as [ys|e] eqn:Em; simpl; [|discriminate].
    intros H. injection H as <-. constructor; [exact Ef|]. by apply IH.
Qed.

Lemma check_name_err n e :
  check_name n = Err e -> e = ValueError \/ e = IndexError.
Proof. unfold check_name. repeat case_match; intros Herr; simplify_eq; auto. Qed.

Lemma check_fields_err seen fields e :
  check_fields seen fields = Err e -> e = ValueError.
Proof.
  revert seen. induction fields as [|f fs IH]; intros seen; simpl; [discriminate|].
  repeat case_match; intros Herr; simplify_eq; eauto.
Qed.

Lemma namedtuple_err t fields e :
  namedtuple t fields = Err e -> e = ValueError \/ e = IndexError.
Proof.
  unfold namedtuple. intros H.
  apply bind_err in H as [H|(_ & _ & H)]; [by apply check_name_err in H|].
  apply bind_err in H as [H|(_ & _ & H)].
  - apply mapM_err in H as (x & _ & H). by apply check_name_err in H.
  - apply bind_err in H as [H|(_ & _ & H)]; [|discriminate].
    left. by apply check_fields_err in H.
Qed.

Lemma make_Row_err fields time values e :
  make_Row fields time values = Err e -> e = TypeError.
Proof.
  unfold make_Row. repeat case_match; intros Herr; simplify_eq; auto.
Qed.

Lemma build_rows_err D results e :
  build_rows D results = Err e -> e <> NotImplementedError.
Proof.
  unfold build_rows. destruct (pivot D (concat results)) as [fields data].
  intros H. apply bind_err in H as [H|(fs & _ & H)].
  - apply namedtuple_err in H as [->| ->]; discriminate.
  - apply mapM_err in H as ([time values] & _ & H).
    apply make_Row_err in H as ->. discriminate.
Qed.

Lemma shape_err meta rows e :
  shape meta rows = Err e -> e <> NotImplementedError.
Proof.
  unfold shape, getitem. intros H.
  apply bind_err in H as [H|(single & _ & H)].
  - destruct (meta !! "single"); simplify_eq; discriminate.
  - destruct (py_truthy single); [|discriminate].
    apply bind_err in H as [H|(ms & _ & H)].
    + destruct (meta !! "metrics"); simplify_eq; discriminate.
    + destruct ms as [| | | |[|metric ms']]; try (simplify_eq; discriminate).
      apply bind_err in H as [H|(vs & _ & H)]; [|discriminate].
      apply mapM_err in H as (row & _ & H). unfold row_getattr in H.
      repeat case_match; simplify_eq; discriminate.
Qed.

Lemma fetch_stage_not_range_error D meta results :
  (rows <- build_rows D results ;; shape meta rows) <> Err NotImplementedError.
Proof.
  intros H. apply bind_err in H as [H|(rows & _ & H)].
  - by apply build_rows_err in H.
  - by apply shape_err in H.
Qed.

Lemma fetch_get_stage_not_range_error D tr meta params :
  (data <- result_data (graph_get_insights tr params) ;;
   rows <- build_rows D [data] ;; shape meta rows) <> Err NotImplementedError.
Proof.
  intros H. apply bind_err in H as [H|(data & _ & H)].
  - unfold result_data in H. destruct (graph_get_insights tr params); discriminate.
  - exact (fetch_stage_not_range_error D meta [data] H).
Qed.

(** [ceil_div a d] is the ceiling of [a / d]. *)
Lemma ceil_div_spec a d :
  (0 < d)%Z -> ((ceil_div a d - 1) * d < a <= ceil_div a d * d)%Z.
Proof.
  intros Hd. unfold ceil_div.
  pose proof (Z.div_mod (- a) d ltac:(lia)) as E.
  pose proof (Z.mod_pos_bound (- a) d Hd) as B.
  set (q := (- a / d)%Z) in *. set (r := (- a mod d)%Z) in *. nia.
Qed.

(** ** C2 *)

(** Claim C2: with [since]/[until] instants [s] and [u] in [meta], the
    span is [ceil((u - s) / 86400 s)] days when a date range is set and 3
    days otherwise; [get()] raises the range error
    ([NotImplementedError]) exactly when that span exceeds 93 days, and
    then raises it before any transport call (no chunking, no
    truncation). *)
Theorem insights_range_limit D tr (meta params : pydict) s u :
  meta !! "since" = Some (PTime s) -> meta !! "until" = Some (PTime u) ->
  let days := if _has_daterange params then ceil_div (u - s) day_us else 3%Z in
  (snd (InsightsSelection_get D tr meta params) = Err NotImplementedError <->
   (93 < days)%Z) /\
  ((93 < days)%Z ->
   InsightsSelection_get D tr meta params = ([], Err NotImplementedError)).
Proof.
  intros Hs Hu days.
  assert (Hd : requested_days meta params = Ok days).
  { unfold requested_days, getitem, days. rewrite Hs, Hu.
    destruct (_has_daterange params); reflexivity. }
  unfold InsightsSelection_get. rewrite Hd.
  destruct (Z.ltb_spec (31 * 3) days) as [Hlt|Hge].
  - split; [split; [intros _; lia | reflexivity] | reflexivity].
  - split; [|intros; lia].
    split; [|intros; lia].
    intros H. exfalso.
    destruct (meta !! "metrics") as [[| | | |ms]|]; simpl in H; try discriminate.
    + exact (fetch_stage_not_range_error _ _ _ H).
    + exact (fetch_get_stage_not_range_error _ _ _ _ H).
Qed.

Lemma insights_range_limit_witness :
  (ranged_meta 0 (100 * day_us) ["a"] !! "since" = Some (PTime 0) /\
   ranged_meta 0 (100 * day_us) ["a"] !! "until" = Some (PTime (100 * day_us))) /\
  let days := if _has_daterange ranged_params
              then ceil_div (100 * day_us - 0) day_us else 3%Z in
  (snd (InsightsSelection_get sample_dates sample_insights_transport
          (ranged_meta 0 (100 * day_us) ["a"]) ranged_params) =
     Err NotImplementedError <-> (93 < days)%Z) /\
  ((93 < days)%Z ->
   InsightsSelection_get sample_dates sample_insights_transport
     (ranged_meta 0 (100 * day_us) ["a"]) ranged_params = ([], Err NotImplementedError)).
Proof.
  assert (H1 : ranged_meta 0 (100 * day_us) ["a"] !! "since" = Some (PTime 0))
    by reflexivity.
  assert (H2 : ranged_meta 0 (100 * day_us) ["a"] !! "until" = Some (PTime (100 * day_us)))
    by reflexivity.
  split; [split; assumption|].
  exact (insights_range_limit sample_dates sample_insights_transport _ ranged_params
           0 (100 * day_us) H1 H2).
Defined.

Example ninety_days_pass :
  InsightsSelection_get sample_dates sample_insights_transport
    (ranged_meta 0 (90 * day_us) ["a"]) ranged_params =
  ([CallAll "insights" ["a"] ranged_params],
   Ok (Rows [[("end_time", CEnd (KTime (101 * day_us))); ("a", CVal (JInt 1))];
             [("end_time", CEnd (KTime (102 * day_us))); ("a", CVal (JInt 2))]])).
Proof. vm_compute. reflexivity. Qed.

Example hundred_days_raise :
  InsightsSelection_get sample_dates sample_insights_transport
    (ranged_meta 0 (100 * day_us) ["a"]) ranged_params = ([], Err NotImplementedError).
Proof. vm_compute. reflexivity. Qed.

Example ninety_three_days_and_a_second_raise :
  InsightsSelection_get sample_dates sample_insights_transport
    (ranged_meta 0 (93 * day_us + 1000000) ["a"]) ranged_params = ([], Err NotImplementedError).
Proof. vm_compute. reflexivity. Qed.

(** ** The pivot *)

Lemma keys_assoc_set {K V} `{EqDecision K} (k k' : K) (v : V) (l : list (K * V)) :
  In k (map fst (assoc_set k' v l)) <-> k = k' \/ In k (map fst l).
Proof.
  induction l as [|[k1 v1] l IH]; simpl; [naive_solver|].
  case_decide; simpl; subst; [naive_solver|]. rewrite IH. naive_solver.
Qed.

Lemma keys_pivot_rows D metric rows : forall data k,
  In k (map fst (fold_left (pivot_row D metric) rows data)) <->
  In k (map fst data) \/ exists r, In r rows /\ bucket_of D r = k.
Proof.
  induction rows as [|r rows IH]; intros data k; simpl.
  - split; [tauto|]. intros [H|(r & [] & _)]. exact H.
  - rewrite IH. unfold pivot_row. rewrite keys_assoc_set.
    split.
    + intros [[->|H]|(r' & Hr' & <-)]; eauto.
    + intros [H|(r' & [<-|Hr'] & <-)]; eauto.
Qed.

Lemma keys_pivot_datasets D dss : forall acc k,
  In k (map fst (snd (fold_left (pivot_dataset D) dss acc))) <->
  In k (map fst (snd acc)) \/
  exists ds r, In ds dss /\ In r (ds_values ds) /\ bucket_of D r = k.
Proof.
  induction dss as [|ds dss IH]; intros [fields data] k; simpl.
  - split; [tauto|]. intros [H|(ds & r & [] & _)]. exact H.
  - rewrite IH. simpl. rewrite keys_pivot_rows.
    split.
    + intros [[H|(r & Hr & <-)]|(ds' & r & Hds & Hr & <-)]; eauto 10.
    + intros [H|(ds' & r & [<-|Hds] & Hr & <-)]; eauto 10.
Qed.

(** Every time bucket of the pivot comes from some value row, and every
    value row's bucket is a key of the pivot. *)
Lemma pivot_keys D datasets k :
  In k (map fst (snd (pivot D datasets))) <->
  exists ds r, In ds datasets /\ In r (ds_values ds) /\ bucket_of D r = k.
Proof. unfold pivot. rewrite keys_pivot_datasets. simpl. tauto. Qed.

(** ** C3 *)

(** Claim C3 (as stated, refuted): with metrics ["a"] and ["b"] and the
    buckets [{t1: {a: 1}, t2: {a: 2, b: 3}}], [get()] does not return two
    rows: building the [Row] of [t1] lacks the field [b] and raises
    [TypeError], which aborts the fetch. *)
Lemma insights_missing_metric_counterexample :
  InsightsSelection_get sample_dates (ab_transport "101" "102" [vrow 3 "102"])
    ab_meta plain_params =
  ([CallAll "insights" ["a"; "b"] plain_params], Err TypeError).
Proof. vm_compute. reflexivity. Qed.

(** Claim C3 (amended): for the requested metrics ["a"; "b"], when the
    datasets pivot to [{t1: {a: 1}, t2: {a: 2, b: 3}}] (two distinct
    instants), [get()] raises [TypeError] (the missing [b] of [t1] is not
    defaulted); when every bucket carries both metrics
    ([{t1: {a: 1, b: 4}, t2: {a: 2, b: 3}}]) it returns exactly two rows,
    in some order, each with the fields [end_time], [a], [b] in that
    order. For any datasets, the keys of the pivot are exactly the buckets
    of the value rows, a bucket being the parsed [end_time] instant or
    ['lifetime'] when the row has no (or an empty) [end_time]. *)
Theorem insights_pivot_rows D s1 s2 (meta params : pydict) days :
  s1 <> "" -> s2 <> "" -> parse D s1 <> parse D s2 ->
  meta !! "metrics" = Some (PList ["a"; "b"]) -> meta !! "single" = Some (PBool false) ->
  requested_days meta params = Ok days -> (days <= 93)%Z ->
  InsightsSelection_get D (ab_transport s1 s2 [vrow 3 s2]) meta params =
    ([CallAll "insights" ["a"; "b"] params], Err TypeError) /\
  (exists rs,
     InsightsSelection_get D (ab_transport s1 s2 [vrow 4 s1; vrow 3 s2]) meta params =
       ([CallAll "insights" ["a"; "b"] params], Ok (Rows rs)) /\
     Permutation rs
       [[("end_time", CEnd (KTime (parse D s1))); ("a", CVal (JInt 1)); ("b", CVal (JInt 4))];
        [("end_time", CEnd (KTime (parse D s2))); ("a", CVal (JInt 2)); ("b", CVal (JInt 3))]] /\
     Forall (fun r => map fst r = ["end_time"; "a"; "b"]) rs) /\
  (forall datasets k,
     In k (map fst (snd (pivot D datasets))) <->
     exists ds r, In ds datasets /\ In r (ds_values ds) /\
       k = match vr_end_time r with
           | Some e => if String.eqb e "" then KLifetime else KTime (parse D e)
           | None => KLifetime
           end).
Proof.
  intros H1 H2 H12 Hm Hs Hd Hle.
  assert (Hk : forall datasets k,
     In k (map fst (snd (pivot D datasets))) <->
     exists ds r, In ds datasets /\ In r (ds_values ds) /\
       k = match vr_end_time r with
           | Some e => if String.eqb e "" then KLifetime else KTime (parse D e)
           | None => KLifetime
           end).
  { intros datasets k. rewrite pivot_keys. unfold bucket_of.
    split; intros (ds & r & Hds & Hr & Hb); exists ds, r; auto. }
  apply String.eqb_neq in H1, H2.
  unfold InsightsSelection_get. rewrite Hd.
  destruct (Z.ltb_spec (31 * 3) days) as [Hlt|_]; [lia|]. rewrite Hm.
  split; [|split; [|exact Hk]].
  - f_equal. unfold build_rows, pivot; cbn; unfold bucket_of; cbn; rewrite ?H1, ?H2; cbn;
      repeat (case_decide; try congruence; cbn).
    reflexivity.
  - eexists. split; [|split; [reflexivity|repeat constructor]].
    f_equal. unfold build_rows, pivot; cbn; unfold bucket_of; cbn; rewrite ?H1, ?H2; cbn;
      repeat (case_decide; try congruence; cbn).
    unfold shape, getitem. rewrite Hs. reflexivity.
Qed.

Lemma insights_pivot_rows_witness :
  let meta := ranged_meta 0 (90 * day_us) ["a"; "b"] in
  ("101" <> "" /\ "102" <> "" /\ parse sample_dates "101" <> parse sample_dates "102" /\
   meta !! "metrics" = Some (PList ["a"; "b"]) /\
   meta !! "single" = Some (PBool false) /\
   requested_days meta ranged_params = Ok 90%Z /\ (90 <= 93)%Z) /\
  InsightsSelection_get sample_dates (ab_transport "101" "102" [vrow 3 "102"]) meta
    ranged_params = ([CallAll "insights" ["a"; "b"] ranged_params], Err TypeError).
Proof.
  intros meta.
  assert (H1 : "101" <> "") by discriminate.
  assert (H2 : "102" <> "") by discriminate.
  assert (H12 : parse sample_dates "101" <> parse sample_dates "102")
    by (vm_compute; discriminate).
  assert (H3 : meta !! "metrics" = Some (PList ["a"; "b"])) by reflexivity.
  assert (H4 : meta !! "single" = Some (PBool false)) by reflexivity.
  assert (H5 : requested_days meta ranged_params = Ok 90%Z) by (vm_compute; reflexivity).
  assert (H6 : (90 <= 93)%Z) by lia.
  split; [repeat split; assumption|].
  exact (proj1 (insights_pivot_rows sample_dates "101" "102" meta ranged_params 90
                  H1 H2 H12 H3 H4 H5 H6)).
Defined.

(** ** C4 *)

Lemma meta_inv_step D b today m :
  no_metrics_builder b = true -> meta_inv m -> meta_inv (builder_meta D b today m).
Proof.
  intros Hb (Hmet & Hs).
  destruct b; cbn [builder_meta no_metrics_builder] in *;
    unfold range_meta, metrics_meta, meta_inv.
  1,2: rewrite !lookup_insert_ne by discriminate; auto.
  all: try (apply negb_true_iff in Hb; rewrite Hb); auto.
Qed.

Lemma run_builders_meta_inv D bs : forall s w s' w',
  (sel_meta s < next w)%N -> (sel_params s < next w)%N ->
  meta_inv (deref (sel_meta s) w) ->
  forallb no_metrics_builder bs = true ->
  run_builders D s bs w = Some (s', w') ->
  meta_inv (deref (sel_meta s') w').
Proof.
  induction bs as [|b bs IH]; intros s w s' w' Hm Hp Hinv Hall Hrun; simpl in Hrun, Hall.
  - injection Hrun as <- <-. exact Hinv.
  - apply andb_true_iff in Hall as [Hb Hall].
    destruct (apply_builder D s b w) as [[s1 w1]|] eqn:Eb; [|discriminate].
    pose proof (apply_builder_post D s b w s1 w1 Hm Hp Eb)
      as (_ & _ & _ & _ & _ & Hm1 & Hp1 & _ & _ & _ & _ & Hmu & _).
    apply (IH s1 w1); auto.
    rewrite Hmu. by apply meta_inv_step.
Qed.

Lemma shape_no_single meta rows :
  meta !! "single" = None -> shape meta rows = Err (KeyError "single").
Proof. intros H. unfold shape, getitem. rewrite H. reflexivity. Qed.

(** Claim C4 (code bug): for a selection from [Page.insights] followed
    by any chain of builder calls none of which requests metrics,
    [meta] has no ['metrics'] key, yet [get()] never returns a result:
    whenever the date range passes the 93-day check, it issues the single
    call [graph.get('insights', **params)]. When [range] or [since] was
    called, [params['page']] is True, that call returns a lazy sequence
    of pages and [result['data']] raises [TypeError]; otherwise, when the
    rows are built, reading [self.meta['single']] raises [KeyError]. *)
Theorem insights_without_metrics_keyerror D tr edge bs w s' w' :
  reachable D CInsightsSelection edge bs w = Some (s', w') ->
  forallb no_metrics_builder bs = true ->
  let meta := deref (sel_meta s') w' in
  let params := deref (sel_params s') w' in
  meta !! "metrics" = None /\
  (forall out, snd (InsightsSelection_get D tr meta params) <> Ok out) /\
  (forall days, requested_days meta params = Ok days -> (days <= 93)%Z ->
     (existsb is_range_builder bs = true ->
        InsightsSelection_get D tr meta params =
          ([CallGet "insights" params], Err TypeError)) /\
     (forall rows, existsb is_range_builder bs = false ->
        build_rows D [graph_get tr params] = Ok rows ->
        InsightsSelection_get D tr meta params =
          ([CallGet "insights" params], Err (KeyError "single")))).
Proof.
  intros Hr Hall meta params. unfold reachable in Hr.
  pose proof (Selection_init_shape D CInsightsSelection edge w) as Hi.
  assert (Hi0 : meta_inv (deref (sel_meta (fst (Selection_init D CInsightsSelection edge w)))
                                (snd (Selection_init D CInsightsSelection edge w)))).
  { unfold Selection_init, alloc, with_heap, deref, meta_inv; cbn.
    rewrite lookup_insert_ne by lia. rewrite lookup_insert_eq. cbn.
    rewrite !lookup_insert_ne by discriminate. split; reflexivity. }
  destruct (Selection_init D CInsightsSelection edge w) as [s0 w0].
  destruct Hi as (Hm & Hp & _ & _ & Hd).
  assert (Hpg0 : page_inv false (deref (sel_params s0) w0)).
  { rewrite Hd. unfold page_inv. rewrite !lookup_insert_eq, !lookup_insert_ne by discriminate.
    rewrite lookup_empty. repeat split; try discriminate; intros [? H]; discriminate. }
  destruct (run_builders_meta_inv D bs s0 w0 s' w' Hm Hp Hi0 Hall Hr) as [Hmet Hs].
  destruct (run_builders_page_inv D bs s0 w0 s' w' false Hm Hp Hpg0 Hr) as [Hpage _].
  cbn [orb] in Hpage. fold meta in Hmet, Hs. fold params in Hpage.
  split; [exact Hmet|split].
  - intros out. unfold InsightsSelection_get.
    destruct (requested_days meta params) as [days|]; [|discriminate].
    destruct (Z.ltb (31 * 3) days); [discriminate|].
    rewrite Hmet. cbn [snd].
    destruct (result_data (graph_get_insights tr params)) as [data|]; cbn [bind];
      [|discriminate].
    destruct (build_rows D [data]); [|discriminate].
    cbn. rewrite shape_no_single by exact Hs. discriminate.
  - intros days Hdays Hle. unfold InsightsSelection_get.
    rewrite Hdays. destruct (Z.ltb_spec (31 * 3) days) as [Hlt|_]; [lia|].
    rewrite Hmet. unfold graph_get_insights. rewrite Hpage.
    split.
    + intros Hrg. rewrite Hrg. reflexivity.
    + intros rows Hrg Hb. rewrite Hrg. cbn. rewrite Hb. cbn.
      rewrite shape_no_single by exact Hs. reflexivity.
Qed.

Lemma insights_without_metrics_keyerror_witness :
  let s0 := fst (Selection_init sample_dates CInsightsSelection 7 sample_world) in
  let w0 := snd (Selection_init sample_dates CInsightsSelection 7 sample_world) in
  let s' := fst (InsightsSelection_daily sample_dates s0 MNone w0) in
  let w' := snd (InsightsSelection_daily sample_dates s0 MNone w0) in
  (reachable sample_dates CInsightsSelection 7 [BDaily MNone] sample_world = Some (s', w') /\
   forallb no_metrics_builder [BDaily MNone] = true) /\
  InsightsSelection_get sample_dates sample_insights_transport
    (deref (sel_meta s') w') (deref (sel_params s') w') =
  ([CallGet "insights" (deref (sel_params s') w')], Err (KeyError "single")).
Proof.
  intros s0 w0 s' w'.
  assert (Hr : reachable sample_dates CInsightsSelection 7 [BDaily MNone] sample_world
               = Some (s', w')) by (vm_compute; reflexivity).
  assert (Ha : forallb no_metrics_builder [BDaily MNone] = true) by reflexivity.
  split; [split; assumption|].
  pose proof (insights_without_metrics_keyerror sample_dates sample_insights_transport 7
                [BDaily MNone] sample_world s' w' Hr Ha) as (_ & _ & H).
  assert (Hd : requested_days (deref (sel_meta s') w') (deref (sel_params s') w') = Ok 3%Z)
    by (vm_compute; reflexivity).
  assert (Hb : build_rows sample_dates
                 [graph_get sample_insights_transport (deref (sel_params s') w')] =
               Ok [[("end_time", CEnd (KTime (101 * day_us))); ("a", CVal (JInt 1))]])
    by (vm_compute; reflexivity).
  exact (proj2 (H 3%Z Hd ltac:(lia)) _ eq_refl Hb).
Defined.

(** ** C8 *)

(** Claim C8 (code bug): indexing a selection does not use the cached
    [_results]: every [__getitem__] call issues a fresh [get()] (one more
    transport fetch), answers from that fresh result, and leaves
    [_results] as it was; so after one iteration pass and two
    subscripts, three fetches have been made where the claimed
    memoization would make one. *)
Theorem getitem_refetches A (fetch : nat -> list A) (st : AccessState A) key :
  (let '(r, st') := Selection___getitem__ A fetch st key in
   fetches A st' = S (fetches A st) /\ _results A st' = _results A st /\
   r = match nth_error (fetch (fetches A st)) key with
       | Some x => Ok x
       | None => Err IndexError
       end) /\
  (forall k1 k2,
     let st0 := {| _results := None; fetches := 0 |} in
     let st1 := snd (Selection___iter__ A fetch st0) in
     let st2 := snd (Selection___getitem__ A fetch st1 k1) in
     let st3 := snd (Selection___getitem__ A fetch st2 k2) in
     fetches A st1 = 1 /\ fetches A st3 = 3 /\
     fetches A (snd (Selection___iter__ A fetch st3)) = 3).
Proof.
  split.
  - destruct st as [res n]. cbn. repeat split.
  - intros k1 k2. cbn. repeat split.
Qed.

(** ** C9 *)

(** Claim C9 (code bug): constructing a [Picture] can raise. When the
    query string of the raw URL carries ['url'] but not ['w'] (or carries
    ['url'] and ['w'] but not ['h']), [Picture.__init__] raises
    [KeyError] on [self.qs['w']] (resp. [self.qs['h']]) instead of
    recovering; e.g. ["http://x.com/safe_image.php?url=http://a.com/b.jpg"].
    (A URL whose network location opens an IPv6 bracket without closing
    it, or the reverse, already makes [urlparse] raise [ValueError].) *)
Theorem picture_missing_dimension_raises raw u us :
  invalid_ipv6 raw = false ->
  parse_qs (url_query raw) !! "url" = Some (u :: us) ->
  (parse_qs (url_query raw) !! "w" = None ->
   Picture_init raw = Err (KeyError "w")) /\
  (forall x xs, parse_qs (url_query raw) !! "w" = Some (x :: xs) ->
   parse_qs (url_query raw) !! "h" = None ->
   Picture_init raw = Err (KeyError "h")).
Proof.
  intros Hv Hu. unfold Picture_init, urlparse_query, qs_first. rewrite Hv. cbn [bind].
  rewrite Hu. cbn.
  split.
  - intros Hw. rewrite Hw. reflexivity.
  - intros x xs Hw Hh. rewrite Hw. cbn. rewrite Hh. reflexivity.
Qed.

Lemma picture_missing_dimension_raises_witness :
  invalid_ipv6 "http://x.com/safe_image.php?url=http://a.com/b.jpg" = false /\
  parse_qs (url_query "http://x.com/safe_image.php?url=http://a.com/b.jpg") !! "url" =
    Some ["http://a.com/b.jpg"] /\
  parse_qs (url_query "http://x.com/safe_image.php?url=http://a.com/b.jpg") !! "w" = None /\
  Picture_init "http://x.com/safe_image.php?url=http://a.com/b.jpg" = Err (KeyError "w").
Proof.
  assert (Hv : invalid_ipv6 "http://x.com/safe_image.php?url=http://a.com/b.jpg" = false)
    by (vm_compute; reflexivity).
  assert (Hu : parse_qs (url_query "http://x.com/safe_image.php?url=http://a.com/b.jpg")
                 !! "url" = Some ["http://a.com/b.jpg"]) by (vm_compute; reflexivity).
  assert (Hw : parse_qs (url_query "http://x.com/safe_image.php?url=http://a.com/b.jpg")
                 !! "w" = None) by (vm_compute; reflexivity).
  split; [exact Hv|split; [exact Hu|split; [exact Hw|]]].
  exact (proj1 (picture_missing_dimension_raises _ _ _ Hv Hu) Hw).
Defined.

(** ** C10 *)

Lemma serialize_snd D tr meta params :
  snd (InsightsSelection_serialize D tr meta params) =
  (out <- snd (InsightsSelection_get D tr meta params) ;;
   match out with
   | Rows rs => mapM Row__asdict rs
   | Values vs => mapM RowAttr__asdict vs
   end).
Proof.
  unfold InsightsSelection_serialize. destruct (InsightsSelection_get D tr meta params).
  reflexivity.
Qed.

Lemma shape_single meta rows o :
  meta !! "single" = Some (PBool true) -> shape meta rows = Ok o ->
  exists vs, o = Values vs.
Proof.
  intros Hs. unfold shape, getitem, bind. rewrite Hs. cbn.
  repeat case_match; intros Hok; simplify_eq; eauto.
Qed.

Lemma get_single_values D tr meta params o :
  meta !! "single" = Some (PBool true) ->
  snd (InsightsSelection_get D tr meta params) = Ok o ->
  exists vs, o = Values vs.
Proof.
  intros Hs. unfold InsightsSelection_get.
  destruct (requested_days meta params) as [days|]; [|discriminate].
  destruct (Z.ltb (31 * 3) days); [discriminate|].
  destruct (meta !! "metrics") as [[| | | |ms]|]; cbn [snd]; try discriminate.
  - destruct (build_rows D _); cbn; [|discriminate].
    apply shape_single; exact Hs.
  - destruct (result_data _) as [data|]; cbn; [|discriminate].
    destruct (build_rows D _); cbn; [|discriminate].
    apply shape_single; exact Hs.
Qed.

Lemma check_fields_class seen fs :
  In "__class__" fs -> check_fields seen fs = Err ValueError.
Proof.
  revert seen. induction fs as [|f fs IH]; intros seen Hin; [destruct Hin|].
  destruct Hin as [->|Hin]; [reflexivity|].
  cbn [check_fields]. repeat case_match; auto.
Qed.

Lemma make_Row_keys fields time values row :
  make_Row fields time values = Ok row -> map fst row = fields.
Proof.
  unfold make_Row. repeat case_match; intros Hr; simplify_eq.
  rewrite map_map. apply map_id.
Qed.

Lemma assoc_get_keys {V} k (l : list (string * V)) v :
  assoc_get k l = Some v -> In k (map fst l).
Proof.
  induction l as [|[k' v'] l IH]; cbn; [discriminate|].
  case_decide; [left; congruence|]. intros Hg. right. exact (IH Hg).
Qed.

Lemma Forall2_In_right {A B} (R : A -> B -> Prop) l l' y :
  Forall2 R l l' -> In y l' -> exists x, In x l /\ R x y.
Proof.
  induction 1 as [|x y' l l' Hxy _ IH]; intros Hin; [destruct Hin|].
  destruct Hin as [<-|Hin]; [exists x; split; [left|]; auto|].
  destruct (IH Hin) as (x' & Hx' & Hr). exists x'. split; [right|]; auto.
Qed.

(** No row built by the code has a field named [__class__]: field names
    starting with an underscore are refused by [namedtuple]. *)
Lemma build_rows_no_class D results rows :
  build_rows D results = Ok rows ->
  List.Forall (fun row => assoc_get "__class__" row = None) rows.
Proof.
  unfold build_rows. destruct (pivot D (concat results)) as [fields data].
  unfold namedtuple. intros H.
  destruct (check_name "Row"); cbn [bind] in H; [|discriminate].
  destruct (mapM check_name fields); cbn [bind] in H; [|discriminate].
  destruct (check_fields [] fields) as [[]|] eqn:Ec; cbn [bind] in H; [|discriminate].
  apply mapM_Forall2 in H. apply List.Forall_forall. intros row Hrow.
  destruct (Forall2_In_right _ _ _ row H Hrow) as ([time values] & _ & Hmk).
  apply make_Row_keys in Hmk.
  destruct (assoc_get "__class__" row) as [c|] eqn:Eg; [|reflexivity].
  apply assoc_get_keys in Eg. rewrite Hmk in Eg.
  rewrite (check_fields_class [] fields Eg) in Ec. discriminate.
Qed.

Lemma shape_first_value meta rows m v vs :
  meta !! "metrics" = Some (PList [m]) ->
  List.Forall (fun row => assoc_get "__class__" row = None) rows ->
  shape meta rows = Ok (Values (v :: vs)) ->
  RowAttr__asdict v = Err (if String.eqb m "__class__" then TypeError else AttributeError).
Proof.
  intros Hm Hrows. unfold shape, getitem.
  destruct (meta !! "single") as [single|]; cbn [bind]; [|discriminate].
  destruct (py_truthy single); [|discriminate].
  rewrite Hm. cbn [bind].
  destruct rows as [|row rows]; cbn [mapM bind]; [discriminate|].
  inversion Hrows as [|? ? Hrow _]; subst.
  unfold row_getattr.
  destruct (assoc_get m row) as [c|] eqn:Ec.
  - destruct (mapM _ rows); cbn [bind]; intros H; [|discriminate].
    injection H as <- _.
    destruct (String.eqb_spec m "__class__") as [->|_]; [congruence|reflexivity].
  - destruct (String.eqb_spec m "__class__") as [_|_];
      [|destruct (in_list m row_members); [|discriminate]];
      destruct (mapM _ rows); cbn [bind]; intros H; try discriminate;
      injection H as <- _; reflexivity.
Qed.

Lemma get_first_value D tr meta params m v vs :
  meta !! "metrics" = Some (PList [m]) ->
  snd (InsightsSelection_get D tr meta params) = Ok (Values (v :: vs)) ->
  RowAttr__asdict v = Err (if String.eqb m "__class__" then TypeError else AttributeError).
Proof.
  intros Hm. unfold InsightsSelection_get.
  destruct (requested_days meta params) as [days|]; [|discriminate].
  destruct (Z.ltb (31 * 3) days); [discriminate|].
  rewrite Hm. cbn [snd].
  destruct (build_rows D _) as [rows|] eqn:Eb; cbn [bind]; [|discriminate].
  apply (shape_first_value meta rows m v vs Hm). exact (build_rows_no_class _ _ _ Eb).
Qed.

(** Claim C10 (as stated, refuted): with a single bare metric,
    [serialize()] does not always raise: when the transport answers with
    no data, [get()] returns the empty list and [serialize()] returns
    [[]]. *)
Lemma single_metric_serialize_counterexample :
  InsightsSelection_serialize sample_dates empty_transport (single_meta "a") plain_params =
  ([CallAll "insights" ["a"] plain_params], Ok []).
Proof. vm_compute. reflexivity. Qed.

(** Claim C10 (amended): for a selection with [meta['single']] true and
    [meta['metrics']] the one metric [m], [get()] returns a plain list of
    values [getattr(row, m)] whenever it returns; [serialize()] raises
    whenever that list is nonempty -- [TypeError] when [m] is
    [__class__] (the class [Row] has [_asdict] only as an unbound
    method), [AttributeError] otherwise (no field value and no other
    attribute has an [_asdict]) -- and returns only when [get()]
    returned the empty list, its result then being the empty list. *)
Theorem single_metric_serialize_raises D tr meta params m :
  meta !! "single" = Some (PBool true) -> meta !! "metrics" = Some (PList [m]) ->
  (forall o, snd (InsightsSelection_get D tr meta params) = Ok o ->
     exists vs, o = Values vs) /\
  (forall v vs, snd (InsightsSelection_get D tr meta params) = Ok (Values (v :: vs)) ->
     snd (InsightsSelection_serialize D tr meta params) =
       Err (if String.eqb m "__class__" then TypeError else AttributeError)) /\
  (forall out, snd (InsightsSelection_serialize D tr meta params) = Ok out ->
     out = [] /\ snd (InsightsSelection_get D tr meta params) = Ok (Values [])).
Proof.
  intros Hs Hm.
  split; [|split].
  - intros o. apply get_single_values. exact Hs.
  - intros v vs Hg. rewrite serialize_snd, Hg. cbn [bind mapM].
    rewrite (get_first_value D tr meta params m v vs Hm Hg). reflexivity.
  - intros out. rewrite serialize_snd.
    destruct (snd (InsightsSelection_get D tr meta params)) as [o|e] eqn:Hg;
      cbn; [|discriminate].
    destruct (get_single_values D tr meta params o Hs Hg) as [vs ->].
    destruct vs as [|v vs]; cbn.
    + intros H. injection H as <-. split; reflexivity.
    + rewrite (get_first_value D tr meta params m v vs Hm Hg). cbn. discriminate.
Qed.

Lemma single_metric_serialize_raises_witness :
  (single_meta "a" !! "single" = Some (PBool true) /\
   single_meta "a" !! "metrics" = Some (PList ["a"]) /\
   snd (InsightsSelection_get sample_dates sample_insights_transport (single_meta "a")
          plain_params) =
     Ok (Values [RField (CVal (JInt 1)); RField (CVal (JInt 2))]) /\
   snd (InsightsSelection_serialize sample_dates sample_insights_transport (single_meta "a")
          plain_params) = Err AttributeError) /\
  (single_meta "__class__" !! "single" = Some (PBool true) /\
   single_meta "__class__" !! "metrics" = Some (PList ["__class__"]) /\
   snd (InsightsSelection_get sample_dates (ab_transport "101" "102" [vrow 4 "101"; vrow 3 "102"])
          (single_meta "__class__") plain_params) = Ok (Values [RRowClass; RRowClass]) /\
   snd (InsightsSelection_serialize sample_dates (ab_transport "101" "102" [vrow 4 "101"; vrow 3 "102"])
          (single_meta "__class__") plain_params) = Err TypeError).
Proof.
  split.
  - assert (Hs : single_meta "a" !! "single" = Some (PBool true)) by reflexivity.
    assert (Hm : single_meta "a" !! "metrics" = Some (PList ["a"])) by reflexivity.
    assert (Hg : snd (InsightsSelection_get sample_dates sample_insights_transport
                        (single_meta "a") plain_params) =
                 Ok (Values [RField (CVal (JInt 1)); RField (CVal (JInt 2))]))
      by (vm_compute; reflexivity).
    split; [exact Hs|split; [exact Hm|split; [exact Hg|]]].
    exact (proj1 (proj2 (single_metric_serialize_raises sample_dates sample_insights_transport
                           (single_meta "a") plain_params "a" Hs Hm)) _ _ Hg).
  - assert (Hs : single_meta "__class__" !! "single" = Some (PBool true)) by reflexivity.
    assert (Hm : single_meta "__class__" !! "metrics" = Some (PList ["__class__"]))
      by reflexivity.
    assert (Hg : snd (InsightsSelection_get sample_dates (ab_transport "101" "102" [vrow 4 "101"; vrow 3 "102"])
                        (single_meta "__class__") plain_params) =
                 Ok (Values [RRowClass; RRowClass])) by (vm_compute; reflexivity).
    split; [exact Hs|split; [exact Hm|split; [exact Hg|]]].
    exact (proj1 (proj2 (single_metric_serialize_raises sample_dates (ab_transport "101" "102" [vrow 4 "101"; vrow 3 "102"])
                           (single_meta "__class__") plain_params "__class__" Hs Hm)) _ _ Hg).
Defined.

(* ================================================================== *)
(** * Further properties of the module *)

(** ** [urlparse.parse_qs] and the picture's basename *)

Lemma parse_qs_fold k l : forall d : gmap string (list string),
  fold_left (fun (d : gmap string (list string)) '(n, v) =>
    match d !! n with
    | Some vs => <[n := (vs ++ [v])%list]> d
    | None => <[n := [v]]> d
    end) l d !! k =
  match d !! k, qsl_values k l with
  | Some vs, ws => Some (vs ++ ws)
  | None, [] => None
  | None, ws => Some ws
  end.
Proof.
  induction l as [|[n v] l IH]; intros d; simpl.
  - unfold qsl_values. simpl. destruct (d !! k); [by rewrite app_nil_r|reflexivity].
  - rewrite IH. unfold qsl_values. simpl.
    destruct (String.eqb_spec n k) as [->|Hne]; simpl.
    + destruct (d !! k) eqn:E; rewrite lookup_insert_eq; [by rewrite <- app_assoc|reflexivity].
    + destruct (d !! n); rewrite lookup_insert_ne by congruence; reflexivity.
Qed.

Lemma split_all_nonempty c s : split_all c s <> [].
Proof.
  destruct s as [|x r]; simpl; [discriminate|].
  destruct (Ascii.eqb x c); [discriminate|]. destruct (split_all c r); discriminate.
Qed.

Lemma join_sep_cons c x w ws :
  join_sep c (String x w :: ws) = String x (join_sep c (w :: ws)).
Proof. destruct ws; reflexivity. Qed.

Lemma join_split_all c s : join_sep c (split_all c s) = s.
Proof.
  induction s as [|x r IH]; simpl; [reflexivity|].
  destruct (Ascii.eqb_spec x c) as [->|Hne].
  - pose proof (split_all_nonempty c r) as Hn.
    destruct (split_all c r) as [|w ws] eqn:E; [congruence|].
    simpl. rewrite <- IH. reflexivity.
  - pose proof (split_all_nonempty c r) as Hn.
    destruct (split_all c r) as [|w ws] eqn:E; [congruence|].
    rewrite join_sep_cons, IH. reflexivity.
Qed.

Lemma split_all_no_char c s : Forall (fun w => no_char c w = true) (split_all c s).
Proof.
  induction s as [|x r IH]; simpl; [repeat constructor|].
  destruct (Ascii.eqb_spec x c) as [->|Hne]; [constructor; [reflexivity|exact IH]|].
  destruct (split_all c r) as [|w ws]; [repeat constructor; unfold no_char; simpl;
    destruct (Ascii.eqb_spec x c); [congruence|reflexivity]|].
  inversion IH as [|? ? Hw Hws]; subst. constructor; [|exact Hws].
  unfold no_char in *. simpl. rewrite Hw. destruct (Ascii.eqb_spec x c); [congruence|reflexivity].
Qed.

Lemma string_app_assoc (a b c : string) : ((a ++ b) ++ c)%string = (a ++ (b ++ c))%string.
Proof. induction a as [|x a IH]; [reflexivity|exact (f_equal (String x) IH)]. Qed.

Lemma join_sep_last c ws d :
  ws <> [] -> exists pre, join_sep c ws = (pre ++ List.last ws d)%string.
Proof.
  induction ws as [|w ws IH]; intros Hne; [congruence|].
  destruct ws as [|w' ws'].
  - exists "". reflexivity.
  - destruct IH as [pre Hpre]; [discriminate|].
    exists (w ++ String c pre)%string. change (join_sep c (w :: w' :: ws'))
      with (w ++ String c (join_sep c (w' :: ws')))%string.
    rewrite Hpre. rewrite string_app_assoc. reflexivity.
Qed.

Lemma last_In_ne {A} (l : list A) d : l <> [] -> In (List.last l d) l.
Proof.
  induction l as [|x l IH]; intros Hne; [congruence|].
  destruct l as [|y l]; [left; reflexivity|].
  right. apply IH. discriminate.
Qed.

Lemma last_segment_spec s :
  no_char "/" (last_segment s) = true /\ exists pre, s = (pre ++ last_segment s)%string.
Proof.
  unfold last_segment. split.
  - pose proof (split_all_no_char "/" s) as H.
    pose proof (split_all_nonempty "/" s) as Hn.
    rewrite List.Forall_forall in H. apply H.
    destruct (split_all "/" s) as [|w ws] eqn:E; [congruence|].
    apply last_In_ne. discriminate.
  - destruct (join_sep_last "/" (split_all "/" s) "" (split_all_nonempty _ _)) as [pre Hpre].
    exists pre. rewrite <- Hpre, join_split_all. reflexivity.
Qed.

Lemma parse_qs_lookup q k :
  parse_qs q !! k = match qsl_values k (parse_qsl q) with [] => None | ws => Some ws end.
Proof.
  unfold parse_qs. rewrite parse_qs_fold, lookup_empty.
  destruct (qsl_values k (parse_qsl q)); reflexivity.
Qed.

Lemma qsl_values_nil k l : ~ In k (map fst l) -> qsl_values k l = [].
Proof.
  induction l as [|[n v] l IH]; simpl; [reflexivity|].
  intros H. unfold qsl_values in *. simpl.
  destruct (String.eqb_spec n k); [subst; tauto|]. apply IH. tauto.
Qed.

Lemma no_char_app c a b : no_char c (a ++ b) = no_char c a && no_char c b.
Proof.
  induction a as [|x a IH]; [reflexivity|].
  unfold no_char in *. simpl. rewrite IH. apply andb_assoc.
Qed.

Lemma no_char_cons c x s :
  no_char c (String x s) = negb (Ascii.eqb x c) && no_char c s.
Proof. reflexivity. Qed.

Lemma split_once_app c a b :
  no_char c a = true -> split_once c (a ++ String c b) = Some (a, b).
Proof.
  induction a as [|x a IH]; intros H; simpl.
  - by rewrite Ascii.eqb_refl.
  - rewrite no_char_cons in H. apply andb_true_iff in H as [Hx H].
    apply negb_true_iff in Hx. rewrite Hx, IH by exact H. reflexivity.
Qed.

Lemma split_once_none c s : no_char c s = true -> split_once c s = None.
Proof.
  induction s as [|x s IH]; intros H; simpl; [reflexivity|].
  rewrite no_char_cons in H. apply andb_true_iff in H as [Hx H].
  apply negb_true_iff in Hx. rewrite Hx, IH by exact H. reflexivity.
Qed.

Lemma split_all_app c a b :
  no_char c a = true -> split_all c (a ++ String c b) = a :: split_all c b.
Proof.
  induction a as [|x a IH]; intros H; simpl.
  - by rewrite Ascii.eqb_refl.
  - rewrite no_char_cons in H. apply andb_true_iff in H as [Hx H].
    apply negb_true_iff in Hx. rewrite Hx, IH by exact H. reflexivity.
Qed.

Lemma split_all_single c s : no_char c s = true -> split_all c s = [s].
Proof.
  induction s as [|x s IH]; intros H; simpl; [reflexivity|].
  rewrite no_char_cons in H. apply andb_true_iff in H as [Hx H].
  apply negb_true_iff in Hx. rewrite Hx, IH by exact H. reflexivity.
Qed.

Lemma unquote_id s : no_char "%" s = true -> unquote s = s.
Proof. intros H. unfold unquote. rewrite split_all_single by exact H. reflexivity. Qed.

Lemma replace_plus_id s : no_char "+" s = true -> replace_plus s = s.
Proof.
  induction s as [|x s IH]; intros H; simpl; [reflexivity|].
  rewrite no_char_cons in H. apply andb_true_iff in H as [Hx H].
  apply negb_true_iff in Hx. rewrite Hx, IH by exact H. reflexivity.
Qed.

Lemma qs_plain_parts s :
  qs_plain s = true ->
  s <> "" /\ no_char "&" s = true /\ no_char ";" s = true /\ no_char "%" s = true /\
  no_char "+" s = true /\ no_char "#" s = true.
Proof.
  unfold qs_plain. intros H. repeat (apply andb_true_iff in H as [H ?]).
  apply negb_true_iff, String.eqb_neq in H. tauto.
Qed.


(** A raw URL whose query has no ['url'] parameter is kept whole as the
    origin, with unknown dimensions, unless its network location opens
    an IPv6 bracket without closing it (or the reverse), where
    [urlparse] raises [ValueError]; the [__repr__] of such a picture
    raises [AttributeError], [width] never having been assigned. *)
Theorem picture_plain_recovery raw :
  ~ In "url" (map fst (parse_qsl (url_query raw))) ->
  (invalid_ipv6 raw = true -> Picture_init raw = Err ValueError) /\
  (invalid_ipv6 raw = false ->
   Picture_init raw =
     Ok {| pic_url := raw; pic_origin := raw; pic_width := None; pic_height := None;
           pic_basename := last_segment raw |}) /\
  Picture___repr__ {| pic_url := raw; pic_origin := raw; pic_width := None;
                      pic_height := None; pic_basename := last_segment raw |} =
    Err AttributeError.
Proof.
  intros H. split; [|split; [|reflexivity]]; intros Hv;
    unfold Picture_init, urlparse_query; rewrite Hv; [reflexivity|].
  cbn [bind]. rewrite parse_qs_lookup, qsl_values_nil by exact H. reflexivity.
Qed.

Lemma picture_plain_recovery_witness :
  (~ In "url" (map fst (parse_qsl (url_query "http://x.com/p.jpg?w=10"))) /\
   invalid_ipv6 "http://x.com/p.jpg?w=10" = false /\
   Picture_init "http://x.com/p.jpg?w=10" =
     Ok {| pic_url := "http://x.com/p.jpg?w=10"; pic_origin := "http://x.com/p.jpg?w=10";
           pic_width := None; pic_height := None;
           pic_basename := last_segment "http://x.com/p.jpg?w=10" |}) /\
  (~ In "url" (map fst (parse_qsl (url_query "http://[x/s.php?w=10"))) /\
   invalid_ipv6 "http://[x/s.php?w=10" = true /\
   Picture_init "http://[x/s.php?w=10" = Err ValueError).
Proof.
  split.
  - assert (H : ~ In "url" (map fst (parse_qsl (url_query "http://x.com/p.jpg?w=10")))).
    { assert (E : parse_qsl (url_query "http://x.com/p.jpg?w=10") = [("w", "10")])
        by (vm_compute; reflexivity).
      rewrite E. simpl. intros [Hw|[]]. discriminate. }
    assert (Hv : invalid_ipv6 "http://x.com/p.jpg?w=10" = false) by (vm_compute; reflexivity).
    split; [exact H|split; [exact Hv|]].
    exact (proj1 (proj2 (picture_plain_recovery _ H)) Hv).
  - assert (H : ~ In "url" (map fst (parse_qsl (url_query "http://[x/s.php?w=10")))).
    { assert (E : parse_qsl (url_query "http://[x/s.php?w=10") = [("w", "10")])
        by (vm_compute; reflexivity).
      rewrite E. simpl. intros [Hw|[]]. discriminate. }
    assert (Hv : invalid_ipv6 "http://[x/s.php?w=10" = true) by (vm_compute; reflexivity).
    split; [exact H|split; [exact Hv|]].
    exact (proj1 (picture_plain_recovery _ H) Hv).
Defined.

(** A proxied picture URL [base?url=U&w=W&h=H], whose parameter values
    need no unquoting and whose network location has no unbalanced IPv6
    bracket, gives back [U] as the origin and [W], [H] as the
    dimensions; the basename is the last [/]-segment of [U], and
    [__repr__] formats these when they are ASCII, raising
    [UnicodeDecodeError] otherwise. *)
Theorem picture_proxied_round_trip base u x y :
  no_char "?" base = true -> no_char "#" base = true ->
  qs_plain u = true -> qs_plain x = true -> qs_plain y = true ->
  let raw := (base ++ "?url=" ++ u ++ "&w=" ++ x ++ "&h=" ++ y)%string in
  invalid_ipv6 raw = false ->
  Picture_init raw =
    Ok {| pic_url := raw; pic_origin := u; pic_width := Some x; pic_height := Some y;
          pic_basename := last_segment u |} /\
  Picture___repr__ {| pic_url := raw; pic_origin := u; pic_width := Some x;
                      pic_height := Some y; pic_basename := last_segment u |} =
    if ascii_str (last_segment u) && ascii_str x && ascii_str y
    then Ok ("<Picture: " ++ last_segment u ++ " (" ++ x ++ "x" ++ y ++ ")>")%string
    else Err UnicodeDecodeError.
Proof.
  intros Hbq Hbh Hu Hx Hy raw Hv.
  split; [|reflexivity].
  destruct (qs_plain_parts u Hu) as (Hu0 & Hu1 & Hu2 & Hu3 & Hu4 & Hu5).
  destruct (qs_plain_parts x Hx) as (Hx0 & Hx1 & Hx2 & Hx3 & Hx4 & Hx5).
  destruct (qs_plain_parts y Hy) as (Hy0 & Hy1 & Hy2 & Hy3 & Hy4 & Hy5).
  set (Q := ("url=" ++ u ++ "&w=" ++ x ++ "&h=" ++ y)%string).
  assert (Hq : url_query raw = Q).
  { unfold url_query. rewrite (split_once_none "#" raw).
    2: { unfold raw. rewrite !no_char_app, Hbh, Hu5, Hx5, Hy5. reflexivity. }
    change raw with (base ++ String "?" Q)%string.
    rewrite split_once_app by exact Hbq. reflexivity. }
  assert (HQ : Q = (("url=" ++ u) ++ String "&" (("w=" ++ x) ++ String "&" ("h=" ++ y)))%string).
  { rewrite !string_app_assoc. reflexivity. }
  assert (Hl : parse_qsl Q = [("url", u); ("w", x); ("h", y)]).
  { unfold parse_qsl. rewrite HQ.
    rewrite split_all_app by (rewrite no_char_app, Hu1; reflexivity).
    rewrite split_all_app by (rewrite no_char_app, Hx1; reflexivity).
    rewrite split_all_single by (rewrite no_char_app, Hy1; reflexivity).
    cbn [map concat].
    rewrite !split_all_single
      by (rewrite no_char_app; first [rewrite Hu2 | rewrite Hx2 | rewrite Hy2]; reflexivity).
    cbn [app flat_map]. cbv [String.append]. simpl.
    rewrite (proj2 (String.eqb_neq u "") Hu0), (proj2 (String.eqb_neq x "") Hx0),
      (proj2 (String.eqb_neq y "") Hy0).
    rewrite !replace_plus_id by assumption.
    rewrite !unquote_id by first [assumption | reflexivity].
    reflexivity. }
  unfold Picture_init, urlparse_query, qs_first. rewrite Hv. cbn [bind].
  rewrite Hq, !parse_qs_lookup, Hl. reflexivity.
Qed.

Lemma picture_proxied_round_trip_witness :
  (no_char "?" "http://x.com/safe_image.php" = true /\
   no_char "#" "http://x.com/safe_image.php" = true /\
   qs_plain "http://a.com/b.jpg" = true /\ qs_plain "130" = true /\ qs_plain "90" = true /\
   invalid_ipv6 "http://x.com/safe_image.php?url=http://a.com/b.jpg&w=130&h=90" = false) /\
  Picture_init "http://x.com/safe_image.php?url=http://a.com/b.jpg&w=130&h=90" =
    Ok {| pic_url := "http://x.com/safe_image.php?url=http://a.com/b.jpg&w=130&h=90";
          pic_origin := "http://a.com/b.jpg"; pic_width := Some "130";
          pic_height := Some "90"; pic_basename := "b.jpg" |}.
Proof.
  assert (H1 : no_char "?" "http://x.com/safe_image.php" = true) by reflexivity.
  assert (H2 : no_char "#" "http://x.com/safe_image.php" = true) by reflexivity.
  assert (H3 : qs_plain "http://a.com/b.jpg" = true) by reflexivity.
  assert (H4 : qs_plain "130" = true) by reflexivity.
  assert (H5 : qs_plain "90" = true) by reflexivity.
  assert (H6 : invalid_ipv6 "http://x.com/safe_image.php?url=http://a.com/b.jpg&w=130&h=90"
               = false) by (vm_compute; reflexivity).
  split; [repeat split; assumption|].
  exact (proj1 (picture_proxied_round_trip "http://x.com/safe_image.php"
                  "http://a.com/b.jpg" "130" "90" H1 H2 H3 H4 H5 H6)).
Defined.

(** Whenever [Picture.__init__] succeeds, [url] is the raw string, the
    basename contains no [/] and is a suffix of the origin. *)
Theorem picture_basename_suffix raw p :
  Picture_init raw = Ok p ->
  pic_url p = raw /\ no_char "/" (pic_basename p) = true /\
  exists pre, pic_origin p = (pre ++ pic_basename p)%string.
Proof.
  unfold Picture_init, urlparse_query, qs_first, bind.
  repeat case_match; intros Hp; simplify_eq; cbn [pic_url pic_basename pic_origin];
    (split; [reflexivity|apply last_segment_spec]).
Qed.

Lemma picture_basename_suffix_witness :
  let raw := "http://x.com/safe_image.php?url=http://a.com/b.jpg&w=130&h=90" in
  let p := {| pic_url := raw; pic_origin := "http://a.com/b.jpg"; pic_width := Some "130";
              pic_height := Some "90"; pic_basename := "b.jpg" |} in
  Picture_init raw = Ok p /\
  pic_url p = raw /\ no_char "/" (pic_basename p) = true /\
  exists pre, pic_origin p = (pre ++ pic_basename p)%string.
Proof.
  intros raw p.
  assert (H : Picture_init raw = Ok p) by (vm_compute; reflexivity).
  split; [exact H|].
  exact (picture_basename_suffix raw p H).
Defined.

(** ** The rows built by [InsightsSelection.get] *)

Lemma assoc_get_set_eq {K V} `{EqDecision K} (k : K) (v : V) l :
  assoc_get k (assoc_set k v l) = Some v.
Proof.
  induction l as [|[k' v'] l IH]; simpl; [by rewrite decide_True|].
  case_decide; simpl; [by rewrite decide_True|]. rewrite decide_False by congruence. exact IH.
Qed.

Lemma assoc_get_set_ne {K V} `{EqDecision K} (k k' : K) (v : V) l :
  k <> k' -> assoc_get k (assoc_set k' v l) = assoc_get k l.
Proof.
  intros Hne. induction l as [|[k1 v1] l IH]; simpl; [by rewrite decide_False|].
  case_decide as E; simpl.
  - subst k1. rewrite !decide_False by congruence. reflexivity.
  - case_decide; [reflexivity|exact IH].
Qed.

Lemma assoc_set_nodup {K V} `{EqDecision K} (k : K) (v : V) l :
  NoDup (map fst l) -> NoDup (map fst (assoc_set k v l)).
Proof.
  induction l as [|[k1 v1] l IH]; simpl; intros H.
  - constructor; [intros Hin; inversion Hin|constructor].
  - inversion H as [|? ? Hn Hl]; subst.
    case_decide; simpl; subst; constructor; auto.
    rewrite list_elem_of_In, keys_assoc_set.
    intros [->|Hin]; [congruence|apply Hn; by apply list_elem_of_In].
Qed.

Lemma assoc_get_In {K V} `{EqDecision K} (k : K) (v : V) l :
  NoDup (map fst l) -> In (k, v) l -> assoc_get k l = Some v.
Proof.
  induction l as [|[k1 v1] l IH]; simpl; [tauto|].
  intros H Hin. inversion H as [|? ? Hn Hl]; subst.
  destruct Hin as [E|Hin].
  - injection E as -> ->. by rewrite decide_True.
  - rewrite decide_False; [auto|].
    intros ->. apply Hn. apply list_elem_of_In. apply (in_map fst) in Hin. exact Hin.
Qed.

Lemma assoc_get_map_fields (g : string -> Cell) fields m :
  In m fields -> assoc_get m (map (fun f => (f, g f)) fields) = Some (g m).
Proof.
  induction fields as [|f fs IH]; simpl; [tauto|].
  intros [->|Hin]; case_decide; subst; auto. congruence.
Qed.

Lemma in_list_assoc_get m (values : list (string * json)) :
  in_list m (map fst values) = true -> exists v, assoc_get m values = Some v.
Proof.
  unfold in_list. induction values as [|[k v] values IH]; simpl; [discriminate|].
  intros H. case_decide; [eauto|].
  apply orb_true_iff in H as [H|H]; [apply String.eqb_eq in H; congruence|auto].
Qed.

Lemma last_or_app {A} (l1 l2 : list A) d :
  last_or (l1 ++ l2) d = last_or l2 (last_or l1 d).
Proof.
  unfold last_or. rewrite rev_app_distr.
  destruct (rev l2); [by rewrite app_nil_l|reflexivity].
Qed.

Lemma pivot_row_lookup2 D m' data r b m :
  lookup2 b m (pivot_row D m' data r) =
  if bool_decide (bucket_of D r = b) && String.eqb m m' then Some (vr_value r)
  else lookup2 b m data.
Proof.
  unfold pivot_row, lookup2.
  destruct (decide (bucket_of D r = b)) as [<-|Hb].
  - rewrite bool_decide_eq_true_2 by reflexivity. rewrite assoc_get_set_eq. simpl.
    destruct (String.eqb_spec m m') as [->|Hm].
    + apply assoc_get_set_eq.
    + rewrite assoc_get_set_ne by exact Hm.
      destruct (assoc_get (bucket_of D r) data); reflexivity.
  - rewrite bool_decide_eq_false_2 by exact Hb. simpl.
    rewrite assoc_get_set_ne by congruence. reflexivity.
Qed.

Lemma fold_pivot_row_lookup2 D m' rows : forall data b m,
  lookup2 b m (fold_left (pivot_row D m') rows data) =
  last_or (if String.eqb m m'
           then map vr_value (List.filter (fun r => bool_decide (bucket_of D r = b)) rows)
           else []) (lookup2 b m data).
Proof.
  induction rows as [|r rows IH]; intros data b m; simpl.
  - by destruct (String.eqb m m').
  - rewrite IH, pivot_row_lookup2.
    destruct (String.eqb m m'); simpl; [|rewrite andb_false_r; reflexivity].
    rewrite andb_true_r.
    destruct (bool_decide (bucket_of D r = b)); simpl; [|reflexivity].
    change (vr_value r :: map vr_value (List.filter (fun r0 => bool_decide (bucket_of D r0 = b)) rows))
      with ([vr_value r] ++ map vr_value (List.filter (fun r0 => bool_decide (bucket_of D r0 = b)) rows)).
    rewrite last_or_app. reflexivity.
Qed.

Lemma pivot_lookup2 D dss : forall acc b m,
  lookup2 b m (snd (fold_left (pivot_dataset D) dss acc)) =
  last_or (metric_values D m b dss) (lookup2 b m (snd acc)).
Proof.
  induction dss as [|ds dss IH]; intros [fields data] b m; simpl; [reflexivity|].
  rewrite IH. simpl. rewrite fold_pivot_row_lookup2.
  unfold metric_values. simpl. rewrite last_or_app. reflexivity.
Qed.

Lemma pivot_fields D dss : forall fields data,
  fst (fold_left (pivot_dataset D) dss (fields, data)) = (fields ++ map ds_name dss)%list.
Proof.
  induction dss as [|ds dss IH]; intros fields data; simpl; [by rewrite app_nil_r|].
  rewrite IH, <- app_assoc. reflexivity.
Qed.

Lemma pivot_nodup D dss : forall acc,
  NoDup (map fst (snd acc)) -> NoDup (map fst (snd (fold_left (pivot_dataset D) dss acc))).
Proof.
  induction dss as [|ds dss IH]; intros [fields data] H; simpl; [exact H|].
  apply IH. simpl. clear IH.
  revert data H. induction (ds_values ds) as [|r rs IHr]; intros data H; simpl; [exact H|].
  apply IHr. unfold pivot_row. by apply assoc_set_nodup.
Qed.

Lemma check_fields_nodup seen fs :
  check_fields seen fs = Ok tt ->
  NoDup fs /\ (forall f, In f fs -> ~ In f seen) /\
  Forall (fun f => forall r, f <> String "_" r) fs.
Proof.
  revert seen. induction fs as [|f fs IH]; intros seen; simpl.
  - intros _. split; [constructor|split; [tauto|constructor]].
  - destruct f as [|c r0] eqn:Ef.
    + destruct (existsb (String.eqb "") seen) eqn:E; [discriminate|].
      intros H. destruct (IH _ H) as (Hn & Hs & Hu).
      split; [constructor; [intros Hin%list_elem_of_In; exact (Hs _ Hin (or_introl eq_refl))|exact Hn]|].
      split; [|constructor; [intros r E'; discriminate|exact Hu]].
      intros g [<-|Hin] Hg.
      * apply Bool.not_true_iff_false in E. apply E, existsb_exists.
        exists "". split; [exact Hg|reflexivity].
      * exact (Hs g Hin (or_intror Hg)).
    + destruct (Ascii.eqb_spec c "_") as [->|Hc]; [discriminate|].
      replace (match c with _ => _ end) with
        (if existsb (String.eqb (String c r0)) seen then Err ValueError
         else check_fields (String c r0 :: seen) fs)
        by (destruct c as [[] [] [] [] [] [] [] []]; try reflexivity; exfalso; apply Hc; reflexivity).
      destruct (existsb (String.eqb (String c r0)) seen) eqn:E; [discriminate|].
      intros H. destruct (IH _ H) as (Hn & Hs & Hu).
      split; [constructor; [intros Hin%list_elem_of_In; exact (Hs _ Hin (or_introl eq_refl))|exact Hn]|].
      split; [|constructor; [intros r E'; injection E' as -> _; congruence|exact Hu]].
      intros g [<-|Hin] Hg.
      * apply Bool.not_true_iff_false in E. apply E, existsb_exists.
        exists (String c r0). split; [exact Hg|apply String.eqb_refl].
      * exact (Hs g Hin (or_intror Hg)).
Qed.

Lemma namedtuple_ok t fields fs :
  namedtuple t fields = Ok fs -> fs = fields /\ NoDup fields.
Proof.
  unfold namedtuple, bind.
  destruct (check_name t); [|discriminate].
  destruct (mapM check_name fields); [|discriminate].
  destruct (check_fields [] fields) as [[]|] eqn:E; [|discriminate].
  intros H. injection H as <-. split; [reflexivity|].
  exact (proj1 (check_fields_nodup _ _ E)).
Qed.

Lemma make_Row_ok fields b values row :
  make_Row fields b values = Ok row ->
  row = map (fun f => (f, if String.eqb f "end_time" then CEnd b
                          else CVal (default JNull (assoc_get f values)))) fields /\
  (forall f, In f fields -> f <> "end_time" -> exists v, assoc_get f values = Some v).
Proof.
  unfold make_Row.
  destruct (in_list "end_time" (map fst values)); [discriminate|].
  destruct (forallb (fun k => in_list k fields) (map fst values)); [|discriminate].
  destruct (forallb (fun f => String.eqb f "end_time" || in_list f (map fst values)) fields)
    eqn:E; [|discriminate].
  simpl. intros H. injection H as <-. split; [reflexivity|].
  intros f Hf Hne. rewrite forallb_forall in E. specialize (E f Hf).
  apply orb_true_iff in E as [E|E]; [apply String.eqb_eq in E; congruence|].
  by apply in_list_assoc_get.
Qed.

Lemma Forall2_map_fst {A B C} (P : A * B -> C -> Prop) (Q : C -> A -> Prop) data rows :
  Forall2 P data rows ->
  (forall p row, In p data -> P p row -> Q row (fst p)) ->
  Forall2 Q rows (map fst data).
Proof.
  induction 1 as [|p row data rows Hp Hrest IH]; intros HPQ; simpl; constructor.
  - apply HPQ; [left; reflexivity|exact Hp].
  - apply IH. intros p' row' Hin. apply HPQ. right. exact Hin.
Qed.

(** [get()] makes one [Row] per distinct time bucket of the fetched
    values (the parsed [end_time], or ['lifetime']), whatever their
    number and order in the datasets. Every row has the fields
    [end_time] followed by the dataset names in order, and these are
    distinct. The cell of a metric [m] in the row of bucket [b] is the
    last value reported for [m] at [b], a later dataset or value row
    overwriting an earlier one. *)
Theorem build_rows_one_row_per_bucket D results rows :
  build_rows D results = Ok rows ->
  let dss := concat results in
  NoDup ("end_time" :: map ds_name dss) /\
  exists buckets,
    NoDup buckets /\
    (forall b, In b buckets <->
       exists ds r, In ds dss /\ In r (ds_values ds) /\ bucket_of D r = b) /\
    Forall2 (fun row b =>
      map fst row = "end_time" :: map ds_name dss /\
      hd_error row = Some ("end_time", CEnd b) /\
      forall m, In m (map ds_name dss) ->
        exists v, assoc_get m row = Some (CVal v) /\
                  last_or (metric_values D m b dss) None = Some v) rows buckets.
Proof.
  intros H dss. unfold build_rows in H. fold dss in H.
  pose proof (pivot_fields D dss ["end_time"] []) as Hf.
  pose proof (pivot_nodup D dss (["end_time"], []) (NoDup_nil_2)) as Hnd.
  pose proof (pivot_lookup2 D dss (["end_time"], [])) as Hl.
  pose proof (pivot_keys D dss) as Hk.
  unfold pivot in H, Hk.
  destruct (fold_left (pivot_dataset D) dss (["end_time"], [])) as [fields data].
  simpl in Hf, Hnd, Hl, Hk. subst fields.
  destruct (namedtuple "Row" ("end_time" :: map ds_name dss)) as [fs|e] eqn:En;
    simpl in H; [|discriminate].
  destruct (namedtuple_ok _ _ _ En) as [-> Hnodup].
  split; [exact Hnodup|].
  exists (map fst data). split; [exact Hnd|]. split.
  { intros b. rewrite <- Hk. reflexivity. }
  apply mapM_Forall2 in H.
  apply (Forall2_map_fst _ _ data rows H).
  intros [b values] row Hin Hrow. simpl.
  destruct (make_Row_ok _ _ _ _ Hrow) as [-> Hall].
  split; [rewrite map_map; simpl; f_equal; apply map_id|].
  split; [reflexivity|].
  intros m Hm.
  assert (Hne : m <> "end_time").
  { intros ->. apply NoDup_cons_1_1 in Hnodup. apply Hnodup. by apply list_elem_of_In. }
  destruct (Hall m (or_intror Hm) Hne) as [v Hv].
  exists v. split.
  - rewrite (assoc_get_map_fields (fun f => if String.eqb f "end_time" then CEnd b
                 else CVal (default JNull (assoc_get f values)))) by (right; exact Hm).
    apply String.eqb_neq in Hne. rewrite Hne, Hv. reflexivity.
  - specialize (Hl b m). unfold lookup2 in Hl at 2. simpl in Hl.
    rewrite <- Hl. unfold lookup2. rewrite (assoc_get_In _ _ _ Hnd Hin). exact Hv.
Qed.

Lemma build_rows_one_row_per_bucket_witness :
  let results := [[{| ds_name := "a"; ds_values := [vrow 1 "101"; vrow 5 "101"; vrow 2 "102"] |}]] in
  let rows := [[("end_time", CEnd (KTime (101 * day_us))); ("a", CVal (JInt 5))];
               [("end_time", CEnd (KTime (102 * day_us))); ("a", CVal (JInt 2))]] in
  build_rows sample_dates results = Ok rows /\
  let dss := concat results in
  NoDup ("end_time" :: map ds_name dss) /\
  exists buckets,
    NoDup buckets /\
    (forall b, In b buckets <->
       exists ds r, In ds dss /\ In r (ds_values ds) /\ bucket_of sample_dates r = b) /\
    Forall2 (fun row b =>
      map fst row = "end_time" :: map ds_name dss /\
      hd_error row = Some ("end_time", CEnd b) /\
      forall m, In m (map ds_name dss) ->
        exists v, assoc_get m row = Some (CVal v) /\
                  last_or (metric_values sample_dates m b dss) None = Some v) rows buckets.
Proof.
  intros results rows.
  assert (H : build_rows sample_dates results = Ok rows) by (vm_compute; reflexivity).
  split; [exact H|].
  exact (build_rows_one_row_per_bucket sample_dates results rows H).
Defined.

Lemma check_name_ok n :
  check_name n = Ok tt ->
  string_forallb is_alnum_or_underscore n = true /\ ~ In n py_keywords /\
  forall c r, n = String c r -> is_digit c = false.
Proof.
  unfold check_name.
  destruct (string_forallb is_alnum_or_underscore n) eqn:Ea; cbn [negb]; [|discriminate].
  destruct (existsb (String.eqb n) py_keywords) eqn:Ek; [discriminate|].
  destruct n as [|c0 r0]; [discriminate|].
  destruct (is_digit c0) eqn:Ed; [discriminate|].
  intros _. split; [reflexivity|]. split.
  - intros Hin. apply Bool.not_true_iff_false in Ek. apply Ek, existsb_exists.
    exists (String c0 r0). split; [exact Hin|apply String.eqb_refl].
  - intros c r E. injection E as -> ->. exact Ed.
Qed.

Lemma Forall2_ok_In {A B} (f : A -> Result B) l l' x :
  Forall2 (fun x y => f x = Ok y) l l' -> In x l -> exists y, f x = Ok y.
Proof.
  induction 1 as [|a b l l' Hab _ IH]; simpl; [tauto|].
  intros [->|Hin]; eauto.
Qed.

Lemma check_name_index n : check_name n = Err IndexError -> n = "".
Proof. unfold check_name. repeat case_match; intros Herr; simplify_eq; reflexivity. Qed.

(** When the fetched datasets carry a name that [namedtuple] refuses --
    a character other than a letter, digit or underscore, a Python
    keyword, a leading digit or underscore -- or two datasets share a
    name, or one is named ['end_time'], building the rows raises
    [ValueError] (names being non-empty). *)
Theorem build_rows_bad_names D results :
  let names := map ds_name (concat results) in
  Forall (fun n => n <> "") names ->
  (Exists (fun n => string_forallb is_alnum_or_underscore n = false \/ In n py_keywords \/
                    (exists c r, n = String c r /\ is_digit c = true) \/
                    (exists r, n = String "_" r)) names \/
   ~ NoDup ("end_time" :: names)) ->
  build_rows D results = Err ValueError.
Proof.
  intros names Hne Hbad. unfold build_rows.
  pose proof (pivot_fields D (concat results) ["end_time"] []) as Hf.
  unfold pivot. destruct (fold_left _ _ _) as [fields data]. simpl in Hf. subst fields.
  unfold namedtuple. cbn [check_name string_forallb bind].
  fold names.
  destruct (mapM check_name ("end_time" :: names)) as [l|e] eqn:Em; cbn [bind].
  - apply mapM_Forall2 in Em.
    destruct (check_fields [] ("end_time" :: names)) as [[]|e] eqn:Ec; cbn [bind].
    + exfalso. destruct (check_fields_nodup _ _ Ec) as (Hnd & _ & Hund).
      destruct Hbad as [Hbad|Hbad]; [|exact (Hbad Hnd)].
      apply List.Exists_exists in Hbad as (n & Hn & Hb).
      assert (Hok : check_name n = Ok tt).
      { destruct (Forall2_ok_In _ _ _ n Em (or_intror Hn)) as [[] Hy]. exact Hy. }
      destruct (check_name_ok n Hok) as (Ha & Hk & Hd).
      destruct Hb as [Hb|[Hb|[(c & r & -> & Hc)|(r & ->)]]].
      * congruence.
      * tauto.
      * rewrite (Hd c r eq_refl) in Hc. discriminate.
      * exact (proj1 (List.Forall_forall _ _) Hund _ (or_intror Hn) r eq_refl).
    + apply check_fields_err in Ec. subst e. reflexivity.
  - apply mapM_err in Em as (n & Hn & He).
    destruct (check_name_err n e He) as [->| ->]; [reflexivity|].
    apply check_name_index in He. subst n.
    destruct Hn as [Hn|Hn]; [discriminate|].
    rewrite List.Forall_forall in Hne. exfalso. exact (Hne "" Hn eq_refl).
Qed.

Lemma build_rows_bad_names_witness :
  let results := [[{| ds_name := "a"; ds_values := [vrow 1 "101"] |}];
                  [{| ds_name := "a"; ds_values := [vrow 2 "101"] |}]] in
  (Forall (fun n => n <> "") (map ds_name (concat results)) /\
   ~ NoDup ("end_time" :: map ds_name (concat results))) /\
  build_rows sample_dates results = Err ValueError.
Proof.
  intros results.
  assert (H1 : Forall (fun n => n <> "") (map ds_name (concat results)))
    by (repeat constructor; discriminate).
  assert (H2 : ~ NoDup ("end_time" :: map ds_name (concat results))).
  { simpl. intros Hnd. apply NoDup_cons_1_2, NoDup_cons_1_1 in Hnd.
    apply Hnd. apply list_elem_of_In. left. reflexivity. }
  split; [split; assumption|].
  exact (build_rows_bad_names sample_dates results H1 (or_intror H2)).
Defined.

(** ** The dictionaries of every selection built through the API *)

Ltac lookup_simpl :=
  repeat first [ rewrite lookup_insert_eq | rewrite lookup_insert_ne by discriminate ].

Lemma meta_ok_step D b today m :
  meta_ok m -> meta_ok (builder_meta D b today m).
Proof.
  intros (Hs & Hu & Hm).
  destruct b as [a u|d|n|ids|ids|ids|ids]; cbn [builder_meta].
  1,2: unfold range_meta, meta_ok; lookup_simpl; split; [eauto|split; [eauto|exact Hm]].
  1: exact (conj Hs (conj Hu Hm)).
  all: unfold metrics_meta; destruct (metrics_truthy ids) eqn:Et;
       [|exact (conj Hs (conj Hu Hm))];
       destruct ids as [|x|ms]; try exact (conj Hs (conj Hu Hm));
       unfold meta_ok; lookup_simpl;
       (split; [exact Hs|split; [exact Hu|right]]).
  all: first [ exists [x]; split; [reflexivity|split; [discriminate|right; split; reflexivity]]
             | exists ms; split; [reflexivity|split; [destruct ms; [discriminate|discriminate]|left; reflexivity]] ].
Qed.

Lemma run_builders_meta_ok D bs : forall s w s' w',
  (sel_meta s < next w)%N -> (sel_params s < next w)%N ->
  meta_ok (deref (sel_meta s) w) ->
  run_builders D s bs w = Some (s', w') ->
  meta_ok (deref (sel_meta s') w').
Proof.
  induction bs as [|b bs IH]; intros s w s' w' Hm Hp Hinv Hrun; simpl in Hrun.
  - injection Hrun as <- <-. exact Hinv.
  - destruct (apply_builder D s b w) as [[s1 w1]|] eqn:Eb; [|discriminate].
    pose proof (apply_builder_post D s b w s1 w1 Hm Hp Eb)
      as (_ & _ & _ & _ & _ & Hm1 & Hp1 & _ & _ & _ & _ & Hmu & _).
    apply (IH s1 w1); auto.
    rewrite Hmu. by apply meta_ok_step.
Qed.

Lemma reachable_dicts D c edge bs w s' w' :
  reachable D c edge bs w = Some (s', w') ->
  meta_ok (deref (sel_meta s') w') /\
  page_inv (existsb is_range_builder bs) (deref (sel_params s') w') /\
  sel_class s' = c /\ sel_edge s' = edge.
Proof.
  unfold reachable. intros Hr.
  pose proof (Selection_init_shape D c edge w) as Hi.
  assert (Hi0 : meta_ok (deref (sel_meta (fst (Selection_init D c edge w)))
                              (snd (Selection_init D c edge w)))).
  { unfold Selection_init, alloc, with_heap, deref, meta_ok; cbn.
    rewrite lookup_insert_ne by lia. rewrite lookup_insert_eq. cbn.
    lookup_simpl. rewrite !lookup_empty. split; [eauto|split; [eauto|left; split; reflexivity]]. }
  destruct (Selection_init D c edge w) as [s0 w0].
  destruct Hi as (Hm & Hp & Hc & He & Hd).
  assert (Hpg : page_inv false (deref (sel_params s0) w0)).
  { rewrite Hd. unfold page_inv. lookup_simpl.
    rewrite lookup_empty. repeat split; try discriminate; intros [? H]; discriminate. }
  split; [exact (run_builders_meta_ok D bs s0 w0 s' w' Hm Hp Hi0 Hr)|].
  split; [exact (run_builders_page_inv D bs s0 w0 s' w' false Hm Hp Hpg Hr)|].
  clear Hi0 Hpg Hd.
  revert s0 w0 Hm Hp Hc He Hr. induction bs as [|b bs IH]; intros s0 w0 Hm Hp Hc He Hr;
    simpl in Hr.
  - injection Hr as <- <-. split; assumption.
  - destruct (apply_builder D s0 b w0) as [[s1 w1]|] eqn:Eb; [|discriminate].
    pose proof (apply_builder_post D s0 b w0 s1 w1 Hm Hp Eb)
      as (Hc1 & He1 & _ & _ & _ & Hm1 & Hp1 & _).
    apply (IH s1 w1); auto; congruence.
Qed.

(** For every selection built by a factory ([Page.posts],
    [Page.insights], [Post.insights]) and a chain of builder calls,
    [meta['since']] and [meta['until']] are instants, and either neither
    ['metrics'] nor ['single'] is set, or ['metrics'] is a non-empty list
    with ['single'] False, or ['single'] True and exactly one metric. *)
Theorem reachable_meta_shape D c edge bs w s' w' :
  reachable D c edge bs w = Some (s', w') ->
  meta_ok (deref (sel_meta s') w').
Proof. intros Hr. exact (proj1 (reachable_dicts D c edge bs w s' w' Hr)). Qed.

Lemma reachable_meta_shape_witness :
  let s0 := fst (Selection_init sample_dates CInsightsSelection 7 sample_world) in
  let w0 := snd (Selection_init sample_dates CInsightsSelection 7 sample_world) in
  let s1 := fst (InsightsSelection_daily sample_dates s0 (MBare "page_fans") w0) in
  let w1 := snd (InsightsSelection_daily sample_dates s0 (MBare "page_fans") w0) in
  reachable sample_dates CInsightsSelection 7 [BDaily (MBare "page_fans")] sample_world =
    Some (s1, w1) /\
  meta_ok (deref (sel_meta s1) w1).
Proof.
  intros s0 w0 s1 w1.
  assert (H : reachable sample_dates CInsightsSelection 7 [BDaily (MBare "page_fans")]
                sample_world = Some (s1, w1)) by (vm_compute; reflexivity).
  split; [exact H|].
  exact (reachable_meta_shape _ _ _ _ _ _ _ H).
Defined.

Lemma take_while_Forall {A} (f : A -> bool) (l : list A) :
  List.Forall (fun x => f x = true) (take_while f l).
Proof.
  induction l as [|x l IH]; simpl; [constructor|].
  destruct (f x) eqn:E; constructor; auto.
Qed.

(** For every selection built by [Page.posts] and any chain of builder
    calls, [meta['since']] is an instant [t], and the posts come from the
    paged sequence exactly when a [range] or [since] call is in the
    chain (else from the single page): when every item of those pages
    constructs a [Post], [get()] returns the posts of the items before
    the first one created before [t], every one created at or after
    [t]. *)
Theorem reachable_post_get D tr edge bs w s' w' :
  reachable D CPostSelection edge bs w = Some (s', w') ->
  let meta := deref (sel_meta s') w' in
  let params := deref (sel_params s') w' in
  let pages := if existsb is_range_builder bs then posts_paged tr params
               else [posts_one tr params] in
  exists t,
    meta !! "since" = Some (PTime t) /\
    (List.Forall (fun raw => exists p, Post_init D edge raw = Ok p) (concat pages) ->
     exists posts,
       PostSelection_get D tr (sel_edge s') meta params = Ok posts /\
       spec_accepted_posts D edge t pages = Ok posts /\
       List.Forall (fun p => (t <= created_time p)%Z) posts).
Proof.
  intros Hr meta params pages.
  destruct (reachable_dicts D CPostSelection edge bs w s' w' Hr)
    as (((t & Ht) & _ & _) & (Hpg & _ & _) & _ & He).
  fold meta in Ht. fold params in Hpg.
  exists t. split; [exact Ht|]. intros Hall.
  destruct (scan_pages_spec D edge t pages [] Hall) as (ps & Hm & Hs).
  exists ps. split; [|split; [exact Hm|]].
  - rewrite He. unfold PostSelection_get, getitem, graph_get_posts.
    rewrite Hpg, Ht. cbn [bind py_truthy]. unfold pages in Hs.
    destruct (existsb is_range_builder bs); exact Hs.
  - apply mapM_Forall2 in Hm. apply List.Forall_forall. intros p Hp.
    destruct (Forall2_In_right _ _ _ p Hm Hp) as (raw & Hin & Hok).
    rewrite (Post_init_created D edge raw p Hok).
    pose proof (take_while_Forall (fun raw => Z.leb t (parse D (raw_created_time raw)))
                  (concat pages)) as Hf.
    rewrite List.Forall_forall in Hf. apply Z.leb_le. exact (Hf raw Hin).
Qed.

Lemma reachable_post_get_witness :
  let s0 := fst (Selection_init sample_dates CPostSelection 7 sample_world) in
  let w0 := snd (Selection_init sample_dates CPostSelection 7 sample_world) in
  let s1 := fst (Selection_since sample_dates s0 "150" w0) in
  let w1 := snd (Selection_since sample_dates s0 "150" w0) in
  reachable sample_dates CPostSelection 7 [BSince "150"] sample_world = Some (s1, w1) /\
  let meta := deref (sel_meta s1) w1 in
  let params := deref (sel_params s1) w1 in
  let pages := if existsb is_range_builder [BSince "150"]
               then posts_paged sample_posts_transport params
               else [posts_one sample_posts_transport params] in
  exists t,
    meta !! "since" = Some (PTime t) /\
    (List.Forall (fun raw => exists p, Post_init sample_dates 7 raw = Ok p) (concat pages) ->
     exists posts,
       PostSelection_get sample_dates sample_posts_transport (sel_edge s1) meta params =
         Ok posts /\
       spec_accepted_posts sample_dates 7 t pages = Ok posts /\
       List.Forall (fun p => (t <= created_time p)%Z) posts).
Proof.
  intros s0 w0 s1 w1.
  assert (H : reachable sample_dates CPostSelection 7 [BSince "150"] sample_world =
              Some (s1, w1)) by (vm_compute; reflexivity).
  split; [exact H|].
  exact (reachable_post_get _ sample_posts_transport _ _ _ _ _ H).
Defined.

(** ** Errors [InsightsSelection.get] can raise *)

Lemma bind_no_keyerror {A B} (r : Result A) (f : A -> Result B) :
  (forall k, r <> Err (KeyError k)) -> (forall a k, f a <> Err (KeyError k)) ->
  forall k, bind r f <> Err (KeyError k).
Proof.
  intros Hr Hf k. destruct r as [a|e]; cbn [bind]; [apply Hf|].
  intros He. apply (Hr k). injection He as ->. reflexivity.
Qed.

Lemma mapM_no_keyerror {A B} (f : A -> Result B) l :
  (forall a k, f a <> Err (KeyError k)) -> forall k, mapM f l <> Err (KeyError k).
Proof.
  intros Hf. induction l as [|x l IH]; cbn [mapM]; [discriminate|].
  apply bind_no_keyerror; [apply Hf|intros y].
  apply bind_no_keyerror; [exact IH|discriminate].
Qed.

Lemma check_name_no_keyerror name k : check_name name <> Err (KeyError k).
Proof.
  unfold check_name.
  destruct (negb _); [discriminate|].
  destruct (existsb _ _); [discriminate|].
  destruct name as [|c r]; [discriminate|]. destruct (is_digit c); discriminate.
Qed.

Lemma check_fields_no_keyerror fields : forall seen k,
  check_fields seen fields <> Err (KeyError k).
Proof.
  induction fields as [|f fs IH]; intros seen k; cbn [check_fields]; [discriminate|].
  destruct f as [|c r];
    [destruct (existsb _ seen); [discriminate|apply IH]|].
  destruct (Ascii.ascii_dec c "_") as [->|Hc].
  - discriminate.
  - assert (E : match String c r with
                | String "_" _ => Err (A:=unit) ValueError
                | _ => if existsb (String.eqb (String c r)) seen then Err ValueError
                       else check_fields (String c r :: seen) fs
                end = if existsb (String.eqb (String c r)) seen then Err ValueError
                       else check_fields (String c r :: seen) fs).
    { destruct c as [[] [] [] [] [] [] [] []]; try reflexivity; exfalso; apply Hc; reflexivity. }
    rewrite E. destruct (existsb _ seen); [discriminate|apply IH].
Qed.

Lemma build_rows_no_keyerror D results k : build_rows D results <> Err (KeyError k).
Proof.
  unfold build_rows. destruct (pivot D (concat results)) as [fields data].
  revert k. apply bind_no_keyerror.
  - unfold namedtuple. apply bind_no_keyerror; [apply check_name_no_keyerror|intros _].
    apply bind_no_keyerror; [apply mapM_no_keyerror, check_name_no_keyerror|intros _].
    apply bind_no_keyerror; [apply check_fields_no_keyerror|discriminate].
  - intros fs. apply mapM_no_keyerror. intros [time values] k. unfold make_Row.
    destruct (in_list _ _); [discriminate|].
    destruct (negb _); [discriminate|]. destruct (negb _); discriminate.
Qed.

Lemma shape_no_keyerror meta rows ms :
  meta !! "metrics" = Some (PList ms) -> ms <> [] ->
  (meta !! "single" = Some (PBool false) \/
   meta !! "single" = Some (PBool true) /\ length ms = 1) ->
  forall k, shape meta rows <> Err (KeyError k).
Proof.
  intros Hm Hne Hs k. unfold shape, getitem.
  destruct Hs as [Hs|[Hs _]]; rewrite Hs; cbn [bind py_truthy]; [discriminate|].
  rewrite Hm. cbn [bind]. destruct ms as [|m ms]; [contradiction|].
  apply bind_no_keyerror; [|discriminate].
  apply mapM_no_keyerror. intros row k'. unfold row_getattr.
  repeat case_match; discriminate.
Qed.

Lemma has_daterange_page_inv r p :
  page_inv r p -> _has_daterange p = r.
Proof.
  intros (_ & Hs & Hu). unfold _has_daterange.
  destruct r.
  - rewrite bool_decide_eq_true_2 by (apply Hs; reflexivity). reflexivity.
  - rewrite !bool_decide_eq_false_2; [reflexivity| |].
    + intros H. apply Hu in H. discriminate.
    + intros H. apply Hs in H. discriminate.
Qed.

(** For every selection built by [Page.insights] or [Post.insights] and
    any chain of builder calls, the day count of [get()] never raises (it
    is 3 when no [range] or [since] call is in the chain), and when it is
    within the limit: either no metrics were requested and the one call
    is [graph.get('insights', **params)], or [meta['metrics']] is a
    non-empty list [ms], the one call is [graph.all('insights', ms,
    **params)], and [get()] never raises [KeyError]. *)
Theorem reachable_insights_get D tr edge bs w s' w' :
  reachable D CInsightsSelection edge bs w = Some (s', w') ->
  let meta := deref (sel_meta s') w' in
  let params := deref (sel_params s') w' in
  exists days,
    requested_days meta params = Ok days /\
    (existsb is_range_builder bs = false -> days = 3%Z) /\
    ((days <= 93)%Z ->
     (meta !! "metrics" = None /\
      fst (InsightsSelection_get D tr meta params) = [CallGet "insights" params]) \/
     (exists ms, meta !! "metrics" = Some (PList ms) /\ ms <> [] /\
      fst (InsightsSelection_get D tr meta params) = [CallAll "insights" ms params] /\
      forall k, snd (InsightsSelection_get D tr meta params) <> Err (KeyError k))).
Proof.
  intros Hr meta params.
  destruct (reachable_dicts D CInsightsSelection edge bs w s' w' Hr)
    as (((s & Hs) & (u & Hu) & Hm) & Hp & _ & _).
  fold meta in Hs, Hu, Hm. fold params in Hp.
  pose proof (has_daterange_page_inv _ _ Hp) as Hdr.
  exists (if existsb is_range_builder bs then ceil_div (u - s) day_us else 3%Z).
  assert (Hd : requested_days meta params =
               Ok (if existsb is_range_builder bs then ceil_div (u - s) day_us else 3%Z)).
  { unfold requested_days, getitem. rewrite Hdr, Hs, Hu.
    destruct (existsb is_range_builder bs); reflexivity. }
  split; [exact Hd|split; [intros ->; reflexivity|]].
  intros Hle. unfold InsightsSelection_get. rewrite Hd.
  destruct (Z.ltb_spec (31 * 3) (if existsb is_range_builder bs
                                  then ceil_div (u - s) day_us else 3%Z)); [lia|].
  destruct Hm as [[Hm Hsg]|(ms & Hm & Hne & Hsg)]; rewrite Hm.
  - left. split; reflexivity.
  - right. exists ms. split; [reflexivity|split; [exact Hne|split; [reflexivity|]]].
    cbn [snd]. apply bind_no_keyerror; [intros k; apply build_rows_no_keyerror|].
    intros rows. exact (shape_no_keyerror meta rows ms Hm Hne Hsg).
Qed.

Lemma reachable_insights_get_witness :
  let s0 := fst (Selection_init sample_dates CInsightsSelection 7 sample_world) in
  let w0 := snd (Selection_init sample_dates CInsightsSelection 7 sample_world) in
  let s1 := fst (InsightsSelection_daily sample_dates s0 (MBare "page_fans") w0) in
  let w1 := snd (InsightsSelection_daily sample_dates s0 (MBare "page_fans") w0) in
  reachable sample_dates CInsightsSelection 7 [BDaily (MBare "page_fans")] sample_world =
    Some (s1, w1) /\
  let meta := deref (sel_meta s1) w1 in
  let params := deref (sel_params s1) w1 in
  exists days,
    requested_days meta params = Ok days /\
    (existsb is_range_builder [BDaily (MBare "page_fans")] = false -> days = 3%Z) /\
    ((days <= 93)%Z ->
     (meta !! "metrics" = None /\
      fst (InsightsSelection_get sample_dates sample_insights_transport meta params) =
        [CallGet "insights" params]) \/
     (exists ms, meta !! "metrics" = Some (PList ms) /\ ms <> [] /\
      fst (InsightsSelection_get sample_dates sample_insights_transport meta params) =
        [CallAll "insights" ms params] /\
      forall k, snd (InsightsSelection_get sample_dates sample_insights_transport meta params)
                  <> Err (KeyError k))).
Proof.
  intros s0 w0 s1 w1.
  assert (H : reachable sample_dates CInsightsSelection 7 [BDaily (MBare "page_fans")]
                sample_world = Some (s1, w1)) by (vm_compute; reflexivity).
  split; [exact H|].
  exact (reachable_insights_get _ sample_insights_transport _ _ _ _ _ H).
Defined.

(** ** [InsightsSelection.__repr__] on the selections of the API *)

Lemma string_forallb_app f a b :
  string_forallb f (a ++ b) = string_forallb f a && string_forallb f b.
Proof.
  induction a as [|x a IH]; [reflexivity|].
  simpl. rewrite IH. apply andb_assoc.
Qed.

Lemma ascii_str_app a b : ascii_str (a ++ b) = ascii_str a && ascii_str b.
Proof. apply string_forallb_app. Qed.

(** For every selection built by [Page.insights] or [Post.insights] and
    any chain of builder calls, with an ASCII [repr] of the page name and
    ASCII ISO dates, [repr()] names the requested metrics joined by
    [", "] (or ["all available metrics"] when none were requested), and
    it carries [" from <since> to <until>"] exactly when a [range] or
    [since] call is in the chain; it raises [UnicodeDecodeError] exactly
    when that metrics text has a non-ASCII byte. *)
Theorem reachable_insights_repr D iso name edge bs w s' w' :
  reachable D CInsightsSelection edge bs w = Some (s', w') ->
  ascii_str name = true -> (forall t, ascii_str (iso t) = true) ->
  let meta := deref (sel_meta s') w' in
  let params := deref (sel_params s') w' in
  exists s u metrics,
    meta !! "since" = Some (PTime s) /\ meta !! "until" = Some (PTime u) /\
    ((meta !! "metrics" = None /\ metrics = "all available metrics") \/
     (exists ms, meta !! "metrics" = Some (PList ms) /\ metrics = str_join ", " ms)) /\
    InsightsSelection___repr__ iso name meta params =
      if ascii_str metrics then
        Ok ("<Insights for '" ++ name ++ "' (" ++ metrics ++
            (if existsb is_range_builder bs
             then " from " ++ iso s ++ " to " ++ iso u else "") ++ ")>")%string
      else Err UnicodeDecodeError.
Proof.
  intros Hr Hn Hiso meta params.
  destruct (reachable_dicts D CInsightsSelection edge bs w s' w' Hr)
    as (((s & Hs) & (u & Hu) & Hm) & Hp & _ & _).
  fold meta in Hs, Hu, Hm. fold params in Hp.
  pose proof (has_daterange_page_inv _ _ Hp) as Hdr.
  assert (Hd : forall metrics, (
    (if ascii_str name && ascii_str metrics &&
        ascii_str (if existsb is_range_builder bs
                   then " from " ++ iso s ++ " to " ++ iso u else "")
     then Ok ("<Insights for '" ++ name ++ "' (" ++ metrics ++
              (if existsb is_range_builder bs
               then " from " ++ iso s ++ " to " ++ iso u else "") ++ ")>")
     else Err UnicodeDecodeError) =
    (if ascii_str metrics then
       Ok ("<Insights for '" ++ name ++ "' (" ++ metrics ++
           (if existsb is_range_builder bs
            then " from " ++ iso s ++ " to " ++ iso u else "") ++ ")>")
     else Err UnicodeDecodeError))%string).
  { intros metrics. rewrite Hn. cbn [andb].
    destruct (ascii_str metrics); [|reflexivity]. cbn [andb].
    destruct (existsb is_range_builder bs); [|reflexivity].
    rewrite !ascii_str_app, !Hiso. reflexivity. }
  destruct Hm as [[Hm _]|(ms & Hm & _)].
  - exists s, u, "all available metrics"%string.
    split; [exact Hs|split; [exact Hu|split; [left; split; [exact Hm|reflexivity]|]]].
    rewrite <- Hd.
    unfold InsightsSelection___repr__, getitem. rewrite Hm, Hdr. cbn [bind].
    destruct (existsb is_range_builder bs); [rewrite Hs; cbn [bind]; rewrite Hu|];
      reflexivity.
  - exists s, u, (str_join ", " ms).
    split; [exact Hs|split; [exact Hu|split; [right; exists ms; split; [exact Hm|reflexivity]|]]].
    rewrite <- Hd.
    unfold InsightsSelection___repr__, getitem. rewrite Hm, Hdr. cbn [bind].
    destruct (existsb is_range_builder bs); [rewrite Hs; cbn [bind]; rewrite Hu|];
      reflexivity.
Qed.

Lemma reachable_insights_repr_witness :
  let iso := fun t : Z => if Z.ltb t (120 * day_us) then "1970-04-11"%string else "1970-05-31"%string in
  let bs := [BDaily (MList ["page_fans"; "page_views"]); BRange "100" (Some "150")] in
  ascii_str "u'Page'" = true /\ (forall t, ascii_str (iso t) = true) /\
  exists s1 w1,
  reachable sample_dates CInsightsSelection 7 bs sample_world = Some (s1, w1) /\
  let meta := deref (sel_meta s1) w1 in
  let params := deref (sel_params s1) w1 in
  exists s u metrics,
    meta !! "since" = Some (PTime s) /\ meta !! "until" = Some (PTime u) /\
    ((meta !! "metrics" = None /\ metrics = "all available metrics") \/
     (exists ms, meta !! "metrics" = Some (PList ms) /\ metrics = str_join ", " ms)) /\
    InsightsSelection___repr__ iso "u'Page'" meta params =
      if ascii_str metrics then
        Ok ("<Insights for '" ++ "u'Page'" ++ "' (" ++ metrics ++
            (if existsb is_range_builder bs
             then " from " ++ iso s ++ " to " ++ iso u else "") ++ ")>")%string
      else Err UnicodeDecodeError.
Proof.
  intros iso bs.
  assert (Hn : ascii_str "u'Page'" = true) by reflexivity.
  assert (Hi : forall t, ascii_str (iso t) = true).
  { intros t. unfold iso. destruct (Z.ltb t (120 * day_us)); reflexivity. }
  split; [exact Hn|split; [exact Hi|]].
  destruct (reachable sample_dates CInsightsSelection 7 bs sample_world)
    as [[s1 w1]|] eqn:H; [|vm_compute in H; discriminate].
  exists s1, w1. split; [reflexivity|].
  exact (reachable_insights_repr _ iso "u'Page'" _ _ _ _ _ H Hn Hi).
Defined.

(** ** Order of the builder calls *)

Ltac dict_ext :=
  apply map_eq; intros ?k; rewrite ?lookup_insert;
  repeat case_decide; subst; try congruence; reflexivity.

Lemma range_builder_meta_commute D a b today m :
  is_range_builder a = true -> is_range_builder b = false ->
  builder_meta D a today (builder_meta D b today m) =
  builder_meta D b today (builder_meta D a today m).
Proof.
  intros Ha Hb.
  destruct a; try discriminate; destruct b; try discriminate;
    cbn [builder_meta]; unfold range_meta, metrics_meta; try reflexivity.
  all: destruct (metrics_truthy _); [|reflexivity].
  all: match goal with |- context [match ?ids with MNone => _ | _ => _ end] =>
         destruct ids end; try reflexivity; dict_ext.
Qed.

Lemma range_builder_params_commute D a b today p :
  is_range_builder a = true -> is_range_builder b = false ->
  builder_params D a today (builder_params D b today p) =
  builder_params D b today (builder_params D a today p).
Proof.
  intros Ha Hb.
  destruct a; try discriminate; destruct b; try discriminate;
    cbn [builder_params]; unfold range_params; dict_ext.
Qed.

(** A [range] or [since] call commutes with any other builder call:
    [sel.range(...).daily(...)] and [sel.daily(...).range(...)] (and
    likewise with [since], [weekly], [monthly], [lifetime] or [latest])
    end with equal [meta] and equal [params] dictionaries. *)
Theorem range_builder_commutes D s a b w s1 w1 s2 w2 :
  (sel_meta s < next w)%N -> (sel_params s < next w)%N ->
  is_range_builder a = true -> is_range_builder b = false ->
  run_builders D s [a; b] w = Some (s1, w1) ->
  run_builders D s [b; a] w = Some (s2, w2) ->
  sel_class s1 = sel_class s2 /\ sel_edge s1 = sel_edge s2 /\
  deref (sel_meta s1) w1 = deref (sel_meta s2) w2 /\
  deref (sel_params s1) w1 = deref (sel_params s2) w2.
Proof.
  intros Hm Hp Ha Hb H1 H2. cbn [run_builders] in H1, H2.
  destruct (apply_builder D s a w) as [[sa wa]|] eqn:Ea; [|discriminate].
  destruct (apply_builder D sa b wa) as [[sab wab]|] eqn:Eab; [|discriminate].
  destruct (apply_builder D s b w) as [[sb wb]|] eqn:Eb; [|discriminate].
  destruct (apply_builder D sb a wb) as [[sba wba]|] eqn:Eba; [|discriminate].
  injection H1 as <- <-. injection H2 as <- <-.
  pose proof (apply_builder_post D s a w sa wa Hm Hp Ea)
    as (Ca & Ga & _ & _ & _ & Hma & Hpa & _ & _ & Ta & _ & Mua & Pua).
  pose proof (apply_builder_post D sa b wa sab wab Hma Hpa Eab)
    as (Cab & Gab & _ & _ & _ & _ & _ & _ & _ & _ & _ & Muab & Puab).
  pose proof (apply_builder_post D s b w sb wb Hm Hp Eb)
    as (Cb & Gb & _ & _ & _ & Hmb & Hpb & _ & _ & Tb & _ & Mub & Pub).
  pose proof (apply_builder_post D sb a wb sba wba Hmb Hpb Eba)
    as (Cba & Gba & _ & _ & _ & _ & _ & _ & _ & _ & _ & Muba & Puba).
  rewrite Muab, Puab, Muba, Puba, Mua, Pua, Mub, Pub, Ta, Tb.
  split; [congruence|split; [congruence|split]].
  - symmetry. apply range_builder_meta_commute; assumption.
  - symmetry. apply range_builder_params_commute; assumption.
Qed.

Lemma range_builder_commutes_witness :
  let s0 := fst (Selection_init sample_dates CInsightsSelection 7 sample_world) in
  let w0 := snd (Selection_init sample_dates CInsightsSelection 7 sample_world) in
  let a := BRange "100" (Some "150") in
  let b := BDaily (MList ["page_fans"; "page_views"]) in
  exists s1 w1 s2 w2,
  run_builders sample_dates s0 [a; b] w0 = Some (s1, w1) /\
  run_builders sample_dates s0 [b; a] w0 = Some (s2, w2) /\
  sel_class s1 = sel_class s2 /\ sel_edge s1 = sel_edge s2 /\
  deref (sel_meta s1) w1 = deref (sel_meta s2) w2 /\
  deref (sel_params s1) w1 = deref (sel_params s2) w2.
Proof.
  intros s0 w0 a b.
  destruct (run_builders sample_dates s0 [a; b] w0) as [[s1 w1]|] eqn:H1;
    [|vm_compute in H1; discriminate].
  destruct (run_builders sample_dates s0 [b; a] w0) as [[s2 w2]|] eqn:H2;
    [|vm_compute in H2; discriminate].
  exists s1, w1, s2, w2. split; [reflexivity|split; [reflexivity|]].
  exact (range_builder_commutes sample_dates s0 a b w0 s1 w1 s2 w2
           ltac:(vm_compute; reflexivity) ltac:(vm_compute; reflexivity)
           eq_refl eq_refl H1 H2).
Defined.
